(** * AIAssistant: the assistant dialog of WebXRide

    A shallow embedding of [src/components/AIAssistant.tsx].

    The component is a React function component.  Its state cells
    ([useState]) are read-only inside one render: every handler created by a
    render sees the values of that render (its _snapshot_), and a call to a
    setter only queues the new value for the next render.  Handlers are
    therefore modelled as functions from the snapshot to the list of effects
    they perform, in program order; the queued updates are committed to the
    state after the handler has returned. *)

From Stdlib Require Import List Bool Arith NArith ZArith QArith String Ascii Lia.
Import ListNotations.
Close Scope Q_scope.

(** ** JavaScript strings

    A JavaScript string is a sequence of UTF-16 code units. *)

Module JS.

Definition code_unit := N.
Definition jsstring := list code_unit.

(** An ASCII literal of the source, as code units. *)
Fixpoint lit (s : string) : jsstring :=
  match s with
  | EmptyString => []
  | String c s' => N_of_ascii c :: lit s'
  end.

Definition eqb (a b : jsstring) : bool :=
  if list_eq_dec N.eq_dec a b then true else false.

(** ECMAScript [WhiteSpace] and [LineTerminator] code points, the ones
    [String.prototype.trim] strips. *)
Definition isWhiteSpace (c : code_unit) : bool :=
  (   (c =? 0x0009) || (c =? 0x000A) || (c =? 0x000B) || (c =? 0x000C)
   || (c =? 0x000D) || (c =? 0x0020) || (c =? 0x00A0) || (c =? 0x1680)
   || ((0x2000 <=? c) && (c <=? 0x200A))
   || (c =? 0x2028) || (c =? 0x2029) || (c =? 0x202F) || (c =? 0x205F)
   || (c =? 0x3000) || (c =? 0xFEFF))%N.

Fixpoint trimStart (s : jsstring) : jsstring :=
  match s with
  | [] => []
  | c :: s' => if isWhiteSpace c then trimStart s' else s
  end.

Definition trimEnd (s : jsstring) : jsstring := rev (trimStart (rev s)).

(** [String.prototype.trim] *)
Definition trim (s : jsstring) : jsstring := trimEnd (trimStart s).

(** ToBoolean on a string: only the empty string is falsy. *)
Definition truthy (s : jsstring) : bool :=
  match s with [] => false | _ :: _ => true end.

Fixpoint startsWith (pat s : jsstring) : bool :=
  match pat, s with
  | [], _ => true
  | _ :: _, [] => false
  | p :: pat', c :: s' => (p =? c)%N && startsWith pat' s'
  end.

(** [String.prototype.toLowerCase] on the ASCII letters; the examples are
    run with it. *)
Definition toLowerCaseASCII (s : jsstring) : jsstring :=
  map (fun c => if (0x41 <=? c) && (c <=? 0x5A) then c + 0x20 else c)%N s.

(** [String.prototype.includes] *)
Fixpoint includes (s pat : jsstring) : bool :=
  startsWith pat s ||
  match s with
  | [] => false
  | _ :: s' => includes s' pat
  end.

End JS.

Import JS.

(** ** Data model *)

(** [useState<'fix' | 'optimize' | 'brainstorm' | 'explain'>]; [fix] is a
    keyword of the proof language, hence the underscore. *)
Inductive Intention := fix_ | optimize | explain | brainstorm.

Definition Intention_eqb (a b : Intention) : bool :=
  match a, b with
  | fix_, fix_ | optimize, optimize | explain, explain
  | brainstorm, brainstorm => true
  | _, _ => false
  end.

(** A number literal is kept as the decimal fraction it is written as; the
    component hands these numbers on and never computes with them. *)
Definition number := Q.

Module Config.
Record t := { temperature : number; label : jsstring; description : jsstring }.
End Config.

(** [intentionConfig]: the label of each entry starts with an emoji, written
    here as its UTF-16 code units. *)
Definition intentionConfig (i : Intention) : Config.t :=
  match i with
  | fix_ =>
      {| Config.temperature := 0.1%Q;
         Config.label := [0xD83D; 0xDC1B]%N ++ lit " Fix Bugs";
         Config.description := lit "Precise fixes, low creativity" |}
  | optimize =>
      {| Config.temperature := 0.2%Q;
         Config.label := [0x26A1]%N ++ lit " Optimize";
         Config.description := lit "Performance improvements" |}
  | explain =>
      {| Config.temperature := 0.3%Q;
         Config.label := [0xD83D; 0xDCDA]%N ++ lit " Explain";
         Config.description := lit "Clear explanations" |}
  | brainstorm =>
      {| Config.temperature := 0.7%Q;
         Config.label := [0xD83D; 0xDCA1]%N ++ lit " Brainstorm";
         Config.description := lit "Creative ideas, high creativity" |}
  end.

(** A function object handed in by the caller, named by its identity. *)
Definition callback := nat.

(** [AIAssistantProps] *)
Module Props.
Record t := {
    open : bool;
    onClose : callback;
    code : jsstring;
    language : jsstring;
    fileName : option jsstring;
    onApplySuggestion : option callback
  }.
End Props.

(** [AIResponse] *)
Record AIResponse := {
  suggestion : jsstring;
  explanation : jsstring;
  confidence : number
}.

(** The argument of [callAIAssistantDirect]. *)
Module Request.
Record t := {
    code : jsstring;
    language : jsstring;
    fileName : option jsstring;
    prompt : jsstring;
    context : jsstring;
    temperature : number
  }.
End Request.

(** The five [useState] cells. *)
Record State := {
  query : jsstring;
  response : option AIResponse;
  loading : bool;
  error : option jsstring;
  intention : Intention
}.

Definition initialState : State :=
  {| query := []; response := None; loading := false; error := None;
     intention := fix_ |}.

(** What a rejected call can throw: an instance of [Error] with its
    [message], or any other value, with its [message] property when it has
    one. *)
Inductive thrown :=
| ErrorInstance (message : jsstring)
| OtherValue (message : option jsstring).

(** How the awaited call settles. *)
Inductive settled :=
| Fulfilled (data : AIResponse)
| Rejected (err : thrown).

(** The effects a handler performs, named after what the source calls. *)
Inductive effect :=
| setQuery (q : jsstring)
| setResponse (r : option AIResponse)
| setLoading (b : bool)
| setError (e : option jsstring)
| setIntention (i : Intention)
| callAIAssistantDirect (req : Request.t)
| console_error (tag : jsstring) (err : thrown)
| window_confirm (message : jsstring)
| invoke_onApplySuggestion (f : callback) (arg : jsstring)
| invoke_onClose (f : callback).

(** Committing one queued update to the state cells; the other effects leave
    them alone. *)
Definition commit1 (s : State) (e : effect) : State :=
  match e with
  | setQuery q =>
      {| query := q; response := response s; loading := loading s;
         error := error s; intention := intention s |}
  | setResponse r =>
      {| query := query s; response := r; loading := loading s;
         error := error s; intention := intention s |}
  | setLoading b =>
      {| query := query s; response := response s; loading := b;
         error := error s; intention := intention s |}
  | setError e =>
      {| query := query s; response := response s; loading := loading s;
         error := e; intention := intention s |}
  | setIntention i =>
      {| query := query s; response := response s; loading := loading s;
         error := error s; intention := i |}
  | _ => s
  end.

Definition commit (s : State) (es : list effect) : State :=
  fold_left commit1 es s.

(** Selectors on a list of effects. *)
Definition requests (es : list effect) : list Request.t :=
  flat_map (fun e => match e with callAIAssistantDirect r => [r] | _ => [] end) es.

Definition closes (es : list effect) : list callback :=
  flat_map (fun e => match e with invoke_onClose f => [f] | _ => [] end) es.

Definition applies (es : list effect) : list (callback * jsstring) :=
  flat_map (fun e => match e with
                     | invoke_onApplySuggestion f a => [(f, a)]
                     | _ => [] end) es.

Definition confirms (es : list effect) : list jsstring :=
  flat_map (fun e => match e with window_confirm m => [m] | _ => [] end) es.

Definition is_update (e : effect) : bool :=
  match e with
  | setQuery _ | setResponse _ | setLoading _ | setError _ | setIntention _ => true
  | _ => false
  end.

(** ** The quick prompts *)

Module QuickPrompt.
Record t := {
  text : jsstring;
  prompt : jsstring;
  intention : Intention
}.
End QuickPrompt.

(** [quickPrompts] (the icon of an entry is decoration and is left out). *)
Definition quickPrompts : list QuickPrompt.t :=
  [ {| QuickPrompt.text := lit "Fix bugs and errors";
       QuickPrompt.prompt := lit "Please review this code and identify any bugs, errors, or potential issues. Provide fixes and explanations.";
       QuickPrompt.intention := fix_ |};
    {| QuickPrompt.text := lit "Optimize performance";
       QuickPrompt.prompt := lit "Please analyze this code for performance improvements and optimization opportunities. Suggest specific changes.";
       QuickPrompt.intention := optimize |};
    {| QuickPrompt.text := lit "Add new features";
       QuickPrompt.prompt := lit "Please suggest how to add new features or functionality to this code. Provide code examples and implementation details.";
       QuickPrompt.intention := brainstorm |};
    {| QuickPrompt.text := lit "Improve code quality";
       QuickPrompt.prompt := lit "Please review this code and suggest improvements for readability, maintainability, and best practices.";
       QuickPrompt.intention := explain |} ].

(** ** The handlers *)

Section Dialog.

(** [String.prototype.toLowerCase], applied to the [language] prop.  The
    values of [FileType] are declared outside this file, so the built-in is
    taken as it is rather than fixed on some alphabet. *)
Variable toLowerCase : jsstring -> jsstring.

(** [customPrompt || query]: an absent or empty [customPrompt] gives way to
    the query cell. *)
Definition effectivePrompt (customPrompt : option jsstring) (q : jsstring)
  : jsstring :=
  match customPrompt with
  | Some p => if truthy p then p else q
  | None => q
  end.

Definition contextString : jsstring :=
  lit "WebXR development with A-Frame, Three.js, and modern web technologies".

(** [handleSubmit], from its call up to the [await]: the guard, the three
    queued updates and the call itself, whose argument is built from the
    props and state cells of the render the handler belongs to. *)
Definition handleSubmit (P : Props.t) (st : State)
    (customPrompt : option jsstring) : list effect :=
  let prompt := effectivePrompt customPrompt (query st) in
  if negb (truthy (trim prompt)) then []
  else
    [ setLoading true;
      setError None;
      setResponse None;
      callAIAssistantDirect
        {| Request.code := Props.code P;
           Request.language := toLowerCase (Props.language P);
           Request.fileName := Props.fileName P;
           Request.prompt := prompt;
           Request.context := contextString;
           Request.temperature :=
             Config.temperature (intentionConfig (intention st)) |} ].

(** [err instanceof Error ? err.message : 'Failed to get AI response'] *)
Definition errorMessage (err : thrown) : jsstring :=
  match err with
  | ErrorInstance m => m
  | OtherValue _ => lit "Failed to get AI response"
  end.

(** [handleSubmit], after the [await]: the [try] branch or the [catch]
    branch, then [finally]. *)
Definition handleSubmit_resume (o : settled) : list effect :=
  match o with
  | Fulfilled data => [ setResponse (Some data); setLoading false ]
  | Rejected err =>
      [ setError (Some (errorMessage err));
        console_error (lit "AI Assistant error:") err;
        setLoading false ]
  end.

(** [handleQuickPrompt]: the two setters only queue their values, and
    [handleSubmit] is the one of the same render, so it still reads the
    [intention] cell of that render. *)
Definition handleQuickPrompt (P : Props.t) (st : State)
    (prompt : jsstring) (intention' : option Intention) : list effect :=
  (match intention' with
   | Some i => [ setIntention i ]
   | None => []
   end)
  ++ [ setQuery prompt ]
  ++ handleSubmit P st (Some prompt).

Definition confirmText : jsstring :=
  lit "This suggestion appears to be a complete file replacement. This will replace your entire code. Are you sure you want to continue?".

Definition looksLikeFullFile (s : jsstring) : bool :=
  includes s (lit "<!DOCTYPE") || includes s (lit "<html").

(** [handleApplySuggestion]; [confirmReplace] is what the user answers to
    [window.confirm], should it be shown. *)
Definition handleApplySuggestion (P : Props.t) (st : State)
    (confirmReplace : bool) : list effect :=
  match response st, Props.onApplySuggestion P with
  | Some r, Some apply =>
      if truthy (suggestion r) then
        if looksLikeFullFile (suggestion r) then
          window_confirm confirmText ::
          (if confirmReplace
           then [ invoke_onApplySuggestion apply (suggestion r);
                  invoke_onClose (Props.onClose P) ]
           else [])
        else [ invoke_onApplySuggestion apply (suggestion r);
               invoke_onClose (Props.onClose P) ]
      else []
  | _, _ => []
  end.

(** *** The keydown listener *)

(** The [handleEscape] closure of one run of the effect: it keeps the [open]
    and [onClose] of the render that created it. *)
Record Listener := {
  listenerId : nat;
  seenOpen : bool;
  seenOnClose : callback
}.

Definition Escape : jsstring := lit "Escape".
Definition Enter : jsstring := lit "Enter".

Definition handleEscape (l : Listener) (key : jsstring) : list effect :=
  if JS.eqb key Escape && seenOpen l then [ invoke_onClose (seenOnClose l) ]
  else [].

(** *** The rendered elements that take clicks *)

Inductive element :=
| Backdrop                      (* the outer [div] *)
| Surface                       (* the dialog and its inert content *)
| CloseButton
| IntentionButton (i : Intention)
| QuickPromptButton (index : nat)
| QueryInput
| AskButton
| ApplyButton.

Definition element_eqb (a b : element) : bool :=
  match a, b with
  | Backdrop, Backdrop | Surface, Surface | CloseButton, CloseButton
  | QueryInput, QueryInput | AskButton, AskButton
  | ApplyButton, ApplyButton => true
  | IntentionButton i, IntentionButton j => Intention_eqb i j
  | QuickPromptButton m, QuickPromptButton n => Nat.eqb m n
  | _, _ => false
  end.

(** Whether the render of this snapshot contains the element. *)
Definition rendered (P : Props.t) (st : State) (x : element) : bool :=
  Props.open P &&
  match x with
  | QuickPromptButton k => k <? List.length quickPrompts
  | ApplyButton => match response st with Some _ => true | None => false end
  | _ => true
  end.

(** The [disabled] attribute. *)
Definition disabled (st : State) (x : element) : bool :=
  match x with
  | QuickPromptButton _ | QueryInput => loading st
  | AskButton => loading st || negb (truthy (trim (query st)))
  | _ => false
  end.

(** The [onClick] of the element itself. *)
Definition onClick (P : Props.t) (st : State) (x : element)
    (confirmReplace : bool) : list effect :=
  match x with
  | Backdrop | Surface | QueryInput => []
  | CloseButton => [ invoke_onClose (Props.onClose P) ]
  | IntentionButton i => [ setIntention i ]
  | QuickPromptButton k =>
      match nth_error quickPrompts k with
      | Some q =>
          handleQuickPrompt P st (QuickPrompt.prompt q)
                            (Some (QuickPrompt.intention q))
      | None => []
      end
  | AskButton => handleSubmit P st None
  | ApplyButton => handleApplySuggestion P st confirmReplace
  end.

(** The [onClick] of the backdrop, reached by a click on [target] as it
    bubbles up: [e.target === e.currentTarget]. *)
Definition backdrop_onClick (P : Props.t) (target : element) : list effect :=
  if element_eqb target Backdrop then [ invoke_onClose (Props.onClose P) ]
  else [].

(** A click on [target]: the handler of the element, unless it is disabled,
    then the handler of the backdrop. *)
Definition click (P : Props.t) (st : State) (target : element)
    (confirmReplace : bool) : list effect :=
  (if disabled st target then [] else onClick P st target confirmReplace)
  ++ backdrop_onClick P target.

(** [onKeyPress] of the query input: [e.key === 'Enter' && handleSubmit()]. *)
Definition onKeyPress (P : Props.t) (st : State) (key : jsstring)
  : list effect :=
  if disabled st QueryInput then []
  else if JS.eqb key Enter then handleSubmit P st None else [].

(** [onChange] of the query input. *)
Definition onChange (st : State) (value : jsstring) : list effect :=
  if disabled st QueryInput then [] else [ setQuery value ].


(** *** The response area and the avatar *)

(** ToBoolean on the error cell ([string | null]) and on the response cell
    (an object or [null]). *)
Definition truthyError (e : option jsstring) : bool :=
  match e with Some m => truthy m | None => false end.

Definition truthyResponse (r : option AIResponse) : bool :=
  match r with Some _ => true | None => false end.

Inductive panel :=
| LoadingPanel
| ErrorPanel (shown : jsstring)
| ResponsePanel (r : AIResponse)
| WelcomePanel.

(** The response area of the render: its four conditional blocks, in the
    order of the source. *)
Definition responseArea (st : State) : list panel :=
  (if loading st then [ LoadingPanel ] else [])
  ++ (match error st with
      | Some m => if truthy m then [ ErrorPanel m ] else []
      | None => []
      end)
  ++ (match response st with
      | Some r => [ ResponsePanel r ]
      | None => []
      end)
  ++ (if negb (loading st) && negb (truthyError (error st))
         && negb (truthyResponse (response st))
      then [ WelcomePanel ] else []).

(** The props the header hands to the avatar (its size apart). *)
Record Avatar := {
  isThinking : bool;
  isHappy : bool;
  isConfused : bool
}.

Definition headerAvatar (st : State) : Avatar :=
  {| isThinking := loading st;
     isHappy := truthyResponse (response st) && negb (truthyError (error st));
     isConfused := truthyError (error st) |}.

(** ** The mounted component

    The state cells live as long as the component is mounted, whether or not
    [open] holds: a closed dialog renders nothing but keeps its cells. *)

Record World := {
  mounted : bool;
  props : Props.t;
  state : State;
  (** calls of [callAIAssistantDirect] that have not settled yet *)
  inflight : list Request.t;
  (** the keydown listeners this component has on [document] *)
  keydown : list Listener;
  (** the cleanup of the last run of the effect: the listener to remove *)
  cleanup : option nat;
  fresh : nat
}.

(** The body of the [useEffect]: attach [handleEscape] when [open]. *)
Definition runEffect (P : Props.t) (w : World) : World :=
  if Props.open P then
    {| mounted := mounted w; props := props w; state := state w;
       inflight := inflight w;
       keydown := keydown w ++
                  [ {| listenerId := fresh w; seenOpen := Props.open P;
                       seenOnClose := Props.onClose P |} ];
       cleanup := Some (fresh w);
       fresh := S (fresh w) |}
  else
    {| mounted := mounted w; props := props w; state := state w;
       inflight := inflight w; keydown := keydown w;
       cleanup := None; fresh := fresh w |}.

(** The cleanup the effect returned, if any: [removeEventListener]. *)
Definition runCleanup (w : World) : World :=
  match cleanup w with
  | Some id =>
      {| mounted := mounted w; props := props w; state := state w;
         inflight := inflight w;
         keydown := filter (fun l => negb (listenerId l =? id)) (keydown w);
         cleanup := None; fresh := fresh w |}
  | None => w
  end.

(** The dependency array [[open, onClose]]. *)
Definition depsChanged (P P' : Props.t) : bool :=
  negb (Bool.eqb (Props.open P) (Props.open P'))
  || negb (Props.onClose P =? Props.onClose P').

Definition mount (P : Props.t) : World :=
  runEffect P
    {| mounted := true; props := P; state := initialState; inflight := [];
       keydown := []; cleanup := None; fresh := 0 |}.

Definition withProps (w : World) (P : Props.t) : World :=
  {| mounted := mounted w; props := P; state := state w;
     inflight := inflight w; keydown := keydown w; cleanup := cleanup w;
     fresh := fresh w |}.

(** A handler has run: its updates are committed (a component that is no
    longer mounted has no cells to update) and its calls are in flight. *)
Definition afterHandler (w : World) (es : list effect) : World :=
  {| mounted := mounted w; props := props w;
     state := if mounted w then commit (state w) es else state w;
     inflight := inflight w ++ requests es;
     keydown := keydown w; cleanup := cleanup w; fresh := fresh w |}.

Fixpoint removeNth {A} (n : nat) (l : list A) : list A :=
  match n, l with
  | _, [] => []
  | O, _ :: l' => l'
  | S n', x :: l' => x :: removeNth n' l'
  end.

Inductive event :=
| Rerender (P : Props.t)          (* the caller renders the dialog again *)
| Unmount
| KeyDown (key : jsstring)        (* a key press anywhere in the document *)
| Click (target : element) (confirmReplace : bool)
| KeyPress (key : jsstring)       (* a key press in the query input *)
| Change (value : jsstring)       (* an edit of the query input *)
| Settle (n : nat) (o : settled). (* the n-th call in flight settles *)

(** One event: the world after it and the effects performed, or [None] when
    the event cannot happen in this world. *)
Definition step (w : World) (e : event) : option (World * list effect) :=
  match e with
  | Rerender P' =>
      if mounted w then
        if depsChanged (props w) P'
        then Some (runEffect P' (runCleanup (withProps w P')), [])
        else Some (withProps w P', [])
      else None
  | Unmount =>
      if mounted w then
        let w' := runCleanup w in
        Some ({| mounted := false; props := props w'; state := state w';
                 inflight := inflight w'; keydown := keydown w';
                 cleanup := cleanup w'; fresh := fresh w' |}, [])
      else None
  | KeyDown key =>
      Some (w, flat_map (fun l => handleEscape l key) (keydown w))
  | Click target confirmReplace =>
      if mounted w && rendered (props w) (state w) target then
        let es := click (props w) (state w) target confirmReplace in
        Some (afterHandler w es, es)
      else None
  | KeyPress key =>
      if mounted w && rendered (props w) (state w) QueryInput then
        let es := onKeyPress (props w) (state w) key in
        Some (afterHandler w es, es)
      else None
  | Change value =>
      if mounted w && rendered (props w) (state w) QueryInput then
        let es := onChange (state w) value in
        Some (afterHandler w es, es)
      else None
  | Settle n o =>
      match nth_error (inflight w) n with
      | Some _ =>
          let es := handleSubmit_resume o in
          let w' := afterHandler w es in
          Some ({| mounted := mounted w'; props := props w';
                   state := state w';
                   inflight := removeNth n (inflight w);
                   keydown := keydown w'; cleanup := cleanup w';
                   fresh := fresh w' |}, es)
      | None => None
      end
  end.

(** A run of events, with the effects of all of them in order. *)
Fixpoint run (w : World) (evs : list event) : option (World * list effect) :=
  match evs with
  | [] => Some (w, [])
  | e :: evs' =>
      match step w e with
      | Some (w', es) =>
          match run w' evs' with
          | Some (w'', es') => Some (w'', es ++ es')
          | None => None
          end
      | None => None
      end
  end.

(** The worlds the component can be in. *)
Inductive reachable : World -> Prop :=
| reachable_mount P : reachable (mount P)
| reachable_step w e w' es :
    reachable w -> step w e = Some (w', es) -> reachable w'.

(** ** Invariants of the worlds *)

(** What the effect and its cleanup maintain: the component has its
    [handleEscape] on [document] exactly while it is mounted and open, and
    then it is the closure of the current [open] and [onClose]. *)
Definition listener_inv (w : World) : Prop :=
  match cleanup w with
  | Some id =>
      mounted w = true /\ Props.open (props w) = true /\
      keydown w = [ {| listenerId := id; seenOpen := true;
                       seenOnClose := Props.onClose (props w) |} ]
  | None =>
      keydown w = [] /\ (mounted w = true -> Props.open (props w) = false)
  end.

(** The part of it that does not mention the props. *)
Definition listener_shape (w : World) : Prop :=
  match cleanup w with
  | Some id => exists o c, keydown w = [ {| listenerId := id; seenOpen := o;
                                            seenOnClose := c |} ]
  | None => keydown w = []
  end.

(** Effects that touch neither the three life-cycle cells nor the network. *)
Definition benign (es : list effect) : Prop :=
  requests es = [] /\
  forall st, loading (commit st es) = loading st /\
            response (commit st es) = response st /\
            error (commit st es) = error st.

(** Effects that start one request. *)
Definition starting (es : list effect) : Prop :=
  (exists req, requests es = [req]) /\
  forall st, loading (commit st es) = true /\
            response (commit st es) = None /\
            error (commit st es) = None.

(** At most one call is in flight, and exactly when the loading cell is set;
    while it is, the response and error cells are empty; they are never both
    filled. *)
Definition lifecycle_inv (w : World) : Prop :=
  (loading (state w) = false -> inflight w = []) /\
  List.length (inflight w) <= 1 /\
  (mounted w = true -> inflight w = [] -> loading (state w) = false) /\
  (loading (state w) = true ->
     response (state w) = None /\ error (state w) = None) /\
  (response (state w) = None \/ error (state w) = None).

(** ** Sample data *)

Definition sampleProps : Props.t :=
  {| Props.open := true;
     Props.onClose := 1;
     Props.code := lit "<a-scene></a-scene>";
     Props.language := lit "HTML";
     Props.fileName := Some (lit "index.html");
     Props.onApplySuggestion := Some 2 |}.

Definition sampleResponse : AIResponse :=
  {| suggestion := lit "<a-scene><a-box></a-box></a-scene>";
     explanation := lit "added a box";
     confidence := 0.9%Q |}.

Definition fullFileResponse : AIResponse :=
  {| suggestion := lit "<!DOCTYPE html><html><body></body></html>";
     explanation := lit "a new page";
     confidence := 0.5%Q |}.

Definition emptyResponse : AIResponse :=
  {| suggestion := []; explanation := lit "nothing to change";
     confidence := 1%Q |}.

Definition withQuery (st : State) (q : jsstring) : State := commit1 st (setQuery q).

Definition withResponse (st : State) (r : AIResponse) : State :=
  commit1 st (setResponse (Some r)).

Ltac step_cases H :=
  repeat match type of H with
         | (if ?c then _ else _) = Some _ =>
             let E := fresh "E" in destruct c eqn:E
         | match ?c with Some _ => _ | None => _ end = Some _ =>
             let E := fresh "E" in destruct c eqn:E
         | None = Some _ => discriminate H
         | Some _ = Some _ => injection H as <- <-
         end.

(** ** Strings: what [trim] and [includes] compute *)

Example trim_ex :
  trim (lit "  fix it  ") = lit "fix it" /\ trim (0x00A0%N :: 0x0009%N :: lit " ") = [].
Proof. split; reflexivity. Qed.

Example includes_ex :
  includes (lit "a <html lang>") (lit "<html") = true /\
  includes (lit "<a-scene>") (lit "<html") = false /\
  includes (lit "") (lit "") = true.
Proof. repeat split; reflexivity. Qed.

Lemma truthy_false (s : jsstring) : truthy s = false <-> s = [].
Proof. destruct s; simpl; split; congruence. Qed.

Lemma truthy_true (s : jsstring) : truthy s = true <-> s <> [].
Proof. destruct s; simpl; split; congruence. Qed.

Lemma trimStart_nil (s : jsstring) :
  trimStart s = [] <-> forallb isWhiteSpace s = true.
Proof.
  induction s as [|c s IH]; simpl.
  - tauto.
  - destruct (isWhiteSpace c); simpl.
    + exact IH.
    + split; discriminate.
Qed.

Lemma trimStart_head (s : jsstring) :
  match trimStart s with
  | [] => True
  | c :: _ => isWhiteSpace c = false
  end.
Proof.
  induction s as [|c s IH]; simpl; [exact I|].
  destruct (isWhiteSpace c) eqn:Hc; [exact IH | exact Hc].
Qed.

Lemma forallb_rev {A} (f : A -> bool) (l : list A) :
  forallb f (rev l) = forallb f l.
Proof.
  induction l as [|x l IH]; simpl; [reflexivity|].
  rewrite forallb_app, IH. simpl. rewrite andb_true_r. apply andb_comm.
Qed.

(** The trimmed form is empty exactly for the strings made of white space
    only, the empty string among them. *)
Lemma trim_nil (s : jsstring) :
  trim s = [] <-> forallb isWhiteSpace s = true.
Proof.
  unfold trim, trimEnd. split.
  - intros H. apply trimStart_nil.
    apply (f_equal (@rev _)) in H. rewrite rev_involutive in H. simpl in H.
    apply trimStart_nil in H. rewrite forallb_rev in H.
    pose proof (trimStart_head s) as Hd.
    destruct (trimStart s) as [|c t]; [reflexivity|].
    simpl in H. rewrite Hd in H. discriminate.
  - intros H. apply trimStart_nil in H. rewrite H. reflexivity.
Qed.

Lemma trimStart_split (s : jsstring) :
  exists ws, s = ws ++ trimStart s /\ forallb isWhiteSpace ws = true.
Proof.
  induction s as [|c s [ws [E W]]]; simpl.
  - exists []. auto.
  - destruct (isWhiteSpace c) eqn:Hc.
    + exists (c :: ws). simpl. rewrite Hc, W, <- E. auto.
    + exists []. auto.
Qed.

(** [trim] cuts a run of white space off each end and nothing else. *)
Lemma trim_split (s : jsstring) :
  exists front back,
    s = front ++ trim s ++ back /\
    forallb isWhiteSpace front = true /\ forallb isWhiteSpace back = true.
Proof.
  destruct (trimStart_split s) as [front [E1 W1]].
  destruct (trimStart_split (rev (trimStart s))) as [kcab [E2 W2]].
  exists front, (rev kcab). repeat split.
  - unfold trim, trimEnd. rewrite <- rev_app_distr, <- E2, rev_involutive.
    exact E1.
  - exact W1.
  - rewrite forallb_rev. exact W2.
Qed.

Lemma startsWith_prefix (pat s : jsstring) :
  startsWith pat s = true <-> exists post, s = pat ++ post.
Proof.
  revert s. induction pat as [|p pat IH]; intros s; simpl.
  - split; [exists s; reflexivity | reflexivity].
  - destruct s as [|c s].
    + split; [discriminate | intros [post E]; discriminate].
    + rewrite andb_true_iff, N.eqb_eq, IH. split.
      * intros [-> [post ->]]. exists post. reflexivity.
      * intros [post E]. injection E as -> ->. split; [reflexivity | eauto].
Qed.

(** [includes] is the substring test. *)
Lemma includes_substring (s pat : jsstring) :
  includes s pat = true <-> exists pre post, s = pre ++ pat ++ post.
Proof.
  induction s as [|c s IH]; simpl.
  - rewrite orb_false_r, startsWith_prefix. split.
    + intros [post E]. exists [], post. exact E.
    + intros [pre [post E]]. destruct pre; [eauto | discriminate].
  - rewrite orb_true_iff, startsWith_prefix, IH. split.
    + intros [[post E] | [pre [post E]]].
      * exists [], post. exact E.
      * exists (c :: pre), post. simpl. now rewrite E.
    + intros [pre [post E]]. destruct pre as [|d pre]; simpl in E.
      * left. eauto.
      * right. injection E as _ E. eauto.
Qed.

Lemma includes_nonempty (s pat : jsstring) :
  pat <> [] -> includes s pat = true -> s <> [].
Proof.
  intros Hp H ->. apply includes_substring in H. destruct H as [pre [post E]].
  destruct pre; destruct pat; simpl in E; congruence.
Qed.

(** ** Submission *)

(** The handler either returns at its guard or performs its four effects. *)
Lemma handleSubmit_cases (P : Props.t) (st : State) (cp : option jsstring) :
  let prompt := effectivePrompt cp (query st) in
  (trim prompt = [] /\ handleSubmit P st cp = []) \/
  (trim prompt <> [] /\
   handleSubmit P st cp =
     [ setLoading true; setError None; setResponse None;
       callAIAssistantDirect
         {| Request.code := Props.code P;
            Request.language := toLowerCase (Props.language P);
            Request.fileName := Props.fileName P;
            Request.prompt := prompt;
            Request.context := contextString;
            Request.temperature :=
              Config.temperature (intentionConfig (intention st)) |} ]).
Proof.
  unfold handleSubmit. simpl.
  destruct (trim (effectivePrompt cp (query st))) as [|c t] eqn:E; simpl.
  - left. auto.
  - right. split; [discriminate | reflexivity].
Qed.

(** The guard of [handleSubmit], on the prompt it settles on: when that
    prompt has an empty trimmed form the handler performs no effect at all,
    so no request is issued and every cell keeps its value. *)
Lemma handleSubmit_blank_is_noop (P : Props.t) (st : State)
    (customPrompt : option jsstring) :
  trim (effectivePrompt customPrompt (query st)) = [] ->
  handleSubmit P st customPrompt = [] /\
  requests (handleSubmit P st customPrompt) = [] /\
  commit st (handleSubmit P st customPrompt) = st.
Proof.
  intros H. destruct (handleSubmit_cases P st customPrompt) as [[_ E] | [N _]].
  - rewrite E. auto.
  - contradiction.
Qed.

(** The two ways the guard is met in the component: a blank query cell with
    no explicit prompt, and an explicit prompt of white space. *)
Corollary handleSubmit_blank_query (P : Props.t) (st : State) :
  trim (query st) = [] -> handleSubmit P st None = [].
Proof.
  intros H. destruct (handleSubmit_cases P st None) as [[_ E] | [N _]];
    [exact E | contradiction].
Qed.

Corollary handleSubmit_blank_custom (P : Props.t) (st : State) (p : jsstring) :
  p <> [] -> trim p = [] -> handleSubmit P st (Some p) = [].
Proof.
  intros Hp H. apply truthy_true in Hp.
  destruct (handleSubmit_cases P st (Some p)) as [[_ E] | [N _]];
    [exact E | simpl in N; rewrite Hp in N; contradiction].
Qed.

Lemma afterHandler_nil (w : World) : afterHandler w [] = w.
Proof.
  destruct w as [m p st fl kd cl fr]. unfold afterHandler. simpl.
  rewrite app_nil_r. destruct m; reflexivity.
Qed.

(** In the dialog: Enter on a blank query changes nothing at all. *)
Lemma enter_on_blank_query (w w' : World) (es : list effect) :
  trim (query (state w)) = [] ->
  step w (KeyPress Enter) = Some (w', es) -> w' = w /\ es = [].
Proof.
  intros B H. unfold step in H.
  destruct (mounted w && rendered (props w) (state w) QueryInput);
    [|discriminate].
  assert (E : onKeyPress (props w) (state w) Enter = []).
  { unfold onKeyPress. destruct (disabled (state w) QueryInput); [reflexivity|].
    simpl. now apply handleSubmit_blank_query. }
  rewrite E, afterHandler_nil in H. injection H as <- <-. auto.
Qed.

(** C4: a submission that passes the guard queues [loading = true],
    [error = null] and [response = null], in this order, and only then calls
    [callAIAssistantDirect]; nothing else is done before the [await].  Once
    the updates are committed the three cells hold these values. *)
Theorem handleSubmit_start_clears (P : Props.t) (st : State)
    (customPrompt : option jsstring) :
  trim (effectivePrompt customPrompt (query st)) <> [] ->
  (exists req,
     handleSubmit P st customPrompt =
       [ setLoading true; setError None; setResponse None;
         callAIAssistantDirect req ]) /\
  loading (commit st (handleSubmit P st customPrompt)) = true /\
  response (commit st (handleSubmit P st customPrompt)) = None /\
  error (commit st (handleSubmit P st customPrompt)) = None.
Proof.
  intros H. destruct (handleSubmit_cases P st customPrompt) as [[N _] | [_ E]].
  - contradiction.
  - rewrite E. split; [eexists; reflexivity | auto].
Qed.

(** C10: a submission leaves the query cell and the intention cell alone,
    when it is invoked and when it resumes after either outcome: neither
    part of the handler calls [setQuery] or [setIntention]. *)
Theorem handleSubmit_keeps_query_and_intention (P : Props.t) (st st' : State)
    (customPrompt : option jsstring) (o : settled) :
  query (commit st (handleSubmit P st customPrompt)) = query st /\
  intention (commit st (handleSubmit P st customPrompt)) = intention st /\
  query (commit st' (handleSubmit_resume o)) = query st' /\
  intention (commit st' (handleSubmit_resume o)) = intention st' /\
  Forall (fun e => match e with
                   | setQuery _ | setIntention _ => False
                   | _ => True
                   end)
         (handleSubmit P st customPrompt ++ handleSubmit_resume o).
Proof.
  destruct (handleSubmit_cases P st customPrompt) as [[_ E] | [_ E]];
    rewrite E; destruct o as [data | err]; simpl;
    repeat split; repeat constructor.
Qed.

(** ** Applying a suggestion *)

(** The apply handler never queues an update. *)
Lemma handleApplySuggestion_no_update (P : Props.t) (st : State) (a : bool) :
  forallb (fun e => negb (is_update e)) (handleApplySuggestion P st a) = true.
Proof.
  unfold handleApplySuggestion.
  destruct (response st) as [r|]; [|reflexivity].
  destruct (Props.onApplySuggestion P) as [f|]; [|reflexivity].
  destruct (truthy (suggestion r)); [|reflexivity].
  destruct (looksLikeFullFile (suggestion r)), a; reflexivity.
Qed.

Lemma commit_no_update (st : State) (es : list effect) :
  forallb (fun e => negb (is_update e)) es = true -> commit st es = st.
Proof.
  unfold commit. revert st. induction es as [|e es IH]; intros st H; simpl in *.
  - reflexivity.
  - apply andb_prop in H. destruct H as [He H].
    rewrite <- (IH st H) at 2. f_equal.
    destruct e; simpl in He; try discriminate; reflexivity.
Qed.

(** C9: with no apply callback, or with a response whose suggestion is the
    empty string, a click on the apply control does nothing: the handler
    performs no effect, so no callback is invoked (the close callback
    included, also by way of the backdrop), no confirmation is asked and no
    cell changes. *)
Theorem apply_without_callback_or_text_is_noop (P : Props.t) (st : State)
    (confirmReplace : bool) :
  Props.onApplySuggestion P = None \/
  (exists r, response st = Some r /\ suggestion r = []) ->
  handleApplySuggestion P st confirmReplace = [] /\
  click P st ApplyButton confirmReplace = [] /\
  commit st (click P st ApplyButton confirmReplace) = st.
Proof.
  intros H.
  assert (E : handleApplySuggestion P st confirmReplace = []).
  { unfold handleApplySuggestion. destruct H as [H | [r [Hr Hs]]].
    - rewrite H. destruct (response st); reflexivity.
    - rewrite Hr, Hs. destruct (Props.onApplySuggestion P); reflexivity. }
  unfold click. simpl. rewrite E. auto.
Qed.

(** C6, as amended: let an apply callback be supplied and the suggestion of
    the current response be non-empty.  If the suggestion contains
    ['<!DOCTYPE'] or ['<html'], the handler first asks [window.confirm];
    on a refusal it does nothing more (no callback, no cell changed, the
    close callback not invoked); on a consent it invokes the apply callback
    with the suggestion as it is and then the close callback.  If the
    suggestion contains neither marker, the handler asks nothing and invokes
    the apply callback with the suggestion and then the close callback. *)
Theorem handleApplySuggestion_confirms_full_file (P : Props.t) (st : State)
    (r : AIResponse) (apply : callback) (confirmReplace : bool) :
  response st = Some r ->
  suggestion r <> [] ->
  Props.onApplySuggestion P = Some apply ->
  let es := handleApplySuggestion P st confirmReplace in
  let go := [ invoke_onApplySuggestion apply (suggestion r);
              invoke_onClose (Props.onClose P) ] in
  commit st es = st /\
  (includes (suggestion r) (lit "<!DOCTYPE") = true \/
   includes (suggestion r) (lit "<html") = true ->
     es = window_confirm confirmText :: (if confirmReplace then go else [])) /\
  (includes (suggestion r) (lit "<!DOCTYPE") = false /\
   includes (suggestion r) (lit "<html") = false ->
     es = go).
Proof.
  intros Hr Hs Hf es go. split.
  - apply commit_no_update, handleApplySuggestion_no_update.
  - subst es go. unfold handleApplySuggestion, looksLikeFullFile.
    rewrite Hr, Hf. apply truthy_true in Hs. rewrite Hs. split.
    + intros H. apply orb_true_iff in H. rewrite H.
      destruct confirmReplace; reflexivity.
    + intros [H1 H2]. rewrite H1, H2. reflexivity.
Qed.

(** ** Clicks *)

Lemma element_eqb_eq (a b : element) : element_eqb a b = true <-> a = b.
Proof.
  destruct a as [| | |i|m| | |], b as [| | |j|n| | |]; simpl;
    try (split; [discriminate | congruence]); try tauto.
  - destruct i, j; simpl; split; congruence.
  - rewrite Nat.eqb_eq. split; congruence.
Qed.

Lemma backdrop_onClick_other (P : Props.t) (target : element) :
  target <> Backdrop -> backdrop_onClick P target = [].
Proof.
  intros H. unfold backdrop_onClick.
  destruct (element_eqb target Backdrop) eqn:E; [|reflexivity].
  apply element_eqb_eq in E. contradiction.
Qed.

Lemma closes_app (es es' : list effect) :
  closes (es ++ es') = closes es ++ closes es'.
Proof. unfold closes. apply flat_map_app. Qed.

Lemma handleSubmit_closes (P : Props.t) (st : State) (cp : option jsstring) :
  closes (handleSubmit P st cp) = [].
Proof.
  destruct (handleSubmit_cases P st cp) as [[_ E] | [_ E]]; rewrite E; reflexivity.
Qed.

(** C8, as amended: a click on the backdrop itself invokes the close
    callback, once.  On a click on an element inside it the handler of the
    backdrop does nothing, so the click performs what the handler of that
    element performs and nothing more; the close callback is then invoked
    only by the close control and by the apply control. *)
Theorem backdrop_click_closes_only_on_itself (P : Props.t) (st : State)
    (target : element) (confirmReplace : bool) :
  (target = Backdrop ->
     click P st target confirmReplace = [ invoke_onClose (Props.onClose P) ]) /\
  (target <> Backdrop ->
     backdrop_onClick P target = [] /\
     click P st target confirmReplace =
       if disabled st target then [] else onClick P st target confirmReplace) /\
  (closes (click P st target confirmReplace) <> [] ->
     target = Backdrop \/ target = CloseButton \/ target = ApplyButton).
Proof.
  split; [|split].
  - intros ->. reflexivity.
  - intros H. split; [now apply backdrop_onClick_other|].
    unfold click. rewrite (backdrop_onClick_other P target H). apply app_nil_r.
  - intros H. destruct target as [| | |i|k| | |]; auto; exfalso; apply H;
      unfold click; rewrite closes_app; simpl.
    + reflexivity.
    + reflexivity.
    + destruct (loading st); [reflexivity|].
      destruct (nth_error quickPrompts k) as [q|]; [|reflexivity].
      unfold handleQuickPrompt. rewrite !closes_app, handleSubmit_closes.
      reflexivity.
    + destruct (loading st); reflexivity.
    + destruct (loading st || negb (truthy (trim (query st)))); simpl;
        [reflexivity|]. rewrite handleSubmit_closes. reflexivity.
Qed.

(** ** The Escape key *)

Lemma listener_inv_shape (w : World) (P : Props.t) :
  listener_inv w -> listener_shape (withProps w P) /\ listener_shape w.
Proof.
  unfold listener_inv, listener_shape, withProps. simpl.
  destruct (cleanup w).
  - intros [_ [_ K]]. split; eauto.
  - intros [K _]. auto.
Qed.

Lemma runCleanup_shape (w : World) :
  listener_shape w ->
  keydown (runCleanup w) = [] /\ cleanup (runCleanup w) = None /\
  mounted (runCleanup w) = mounted w /\ props (runCleanup w) = props w /\
  state (runCleanup w) = state w /\ inflight (runCleanup w) = inflight w.
Proof.
  unfold listener_shape, runCleanup. destruct (cleanup w) as [id|] eqn:C; simpl.
  - intros [o [c K]]. rewrite K. simpl. rewrite Nat.eqb_refl. simpl.
    repeat split.
  - intros K. rewrite C. repeat split. exact K.
Qed.

Lemma runEffect_inv (P : Props.t) (w : World) :
  keydown w = [] -> props w = P -> mounted w = true ->
  listener_inv (runEffect P w).
Proof.
  intros K E M. unfold listener_inv, runEffect.
  destruct (Props.open P) eqn:O; simpl.
  - rewrite K, E, O. auto.
  - rewrite E. auto.
Qed.

Lemma afterHandler_listener (w : World) (es : list effect) :
  listener_inv w -> listener_inv (afterHandler w es).
Proof. unfold listener_inv, afterHandler. simpl. auto. Qed.

Lemma depsChanged_false (P P' : Props.t) :
  depsChanged P P' = false ->
  Props.open P' = Props.open P /\ Props.onClose P' = Props.onClose P.
Proof.
  unfold depsChanged. intros H. apply orb_false_elim in H. destruct H as [A B].
  apply negb_false_iff in A, B. apply Bool.eqb_prop in A.
  apply Nat.eqb_eq in B. auto.
Qed.

Lemma listener_inv_step (w w' : World) (e : event) (es : list effect) :
  listener_inv w -> step w e = Some (w', es) -> listener_inv w'.
Proof.
  intros IH St.
  destruct e; unfold step in St; step_cases St;
    try (apply afterHandler_listener; exact IH); try exact IH.
  - (* rendered again, dependencies changed *)
    destruct (listener_inv_shape w P IH) as [Sh _].
    destruct (runCleanup_shape _ Sh) as [K [_ [M [Pr _]]]].
    apply runEffect_inv; [exact K | exact Pr | rewrite M; exact E].
  - (* rendered again, same dependencies *)
    apply depsChanged_false in E0. destruct E0 as [O C].
    revert IH. unfold listener_inv, withProps. simpl. rewrite O, C. auto.
  - (* unmounted *)
    destruct (listener_inv_shape w (props w) IH) as [_ Sh].
    destruct (runCleanup_shape _ Sh) as [K [C _]].
    unfold listener_inv. simpl. rewrite C, K. split; [reflexivity | discriminate].
Qed.

Lemma listener_inv_reachable (w : World) : reachable w -> listener_inv w.
Proof.
  induction 1 as [P | w e w' es R IH St].
  - apply runEffect_inv; reflexivity.
  - exact (listener_inv_step w w' e es IH St).
Qed.

(** C7: in every world the component can be in, a press of Escape while the
    component is mounted and [open] is true invokes the close callback of
    the current props once and does nothing else; while [open] is false (or
    the component is unmounted) it invokes nothing and changes nothing, as
    does any key press then: the component has no listener on the document.
    While open it has one listener, detached by the cleanup. *)
Theorem escape_closes_exactly_when_open (w : World) :
  reachable w ->
  (mounted w && Props.open (props w) = true ->
     List.length (keydown w) = 1 /\
     step w (KeyDown Escape) =
       Some (w, [ invoke_onClose (Props.onClose (props w)) ])) /\
  (mounted w && Props.open (props w) = false ->
     keydown w = [] /\
     forall key, step w (KeyDown key) = Some (w, [])).
Proof.
  intros R. pose proof (listener_inv_reachable w R) as I.
  unfold listener_inv in I. unfold step.
  destruct (cleanup w) as [id|].
  - destruct I as [M [O K]]. rewrite M, O, K. simpl. split.
    + intros _. split; reflexivity.
    + discriminate.
  - destruct I as [K O]. rewrite K. simpl. split.
    + intros H. apply andb_prop in H. destruct H as [M O'].
      rewrite (O M) in O'. discriminate.
    + intros _. split; reflexivity.
Qed.

(** ** The life cycle of a request *)

Lemma commit_app (st : State) (es es' : list effect) :
  commit st (es ++ es') = commit (commit st es) es'.
Proof. unfold commit. apply fold_left_app. Qed.

Lemma requests_app (es es' : list effect) :
  requests (es ++ es') = requests es ++ requests es'.
Proof. unfold requests. apply flat_map_app. Qed.

Lemma benign_nil : benign [].
Proof. split; [reflexivity | intros st; auto]. Qed.

Lemma benign_app (es es' : list effect) :
  benign es -> benign es' -> benign (es ++ es').
Proof.
  intros [R1 C1] [R2 C2]. split.
  - rewrite requests_app, R1, R2. reflexivity.
  - intros st. rewrite commit_app.
    destruct (C1 st) as [A1 [B1 D1]].
    destruct (C2 (commit st es)) as [A2 [B2 D2]].
    repeat split; congruence.
Qed.

Lemma benign_starting (es es' : list effect) :
  benign es -> starting es' -> starting (es ++ es').
Proof.
  intros [R1 C1] [[req R2] C2]. split.
  - exists req. rewrite requests_app, R1, R2. reflexivity.
  - intros st. rewrite commit_app. apply C2.
Qed.

Lemma starting_benign (es es' : list effect) :
  starting es -> benign es' -> starting (es ++ es').
Proof.
  intros [[req R1] C1] [R2 C2]. split.
  - exists req. rewrite requests_app, R1, R2. reflexivity.
  - intros st. rewrite commit_app.
    destruct (C1 st) as [A1 [B1 D1]].
    destruct (C2 (commit st es)) as [A2 [B2 D2]].
    repeat split; congruence.
Qed.

Lemma benign_no_update (es : list effect) :
  forallb (fun e => negb (is_update e)) es = true -> requests es = [] ->
  benign es.
Proof.
  intros U R. split; [exact R|]. intros st.
  rewrite (commit_no_update st es U). auto.
Qed.

Lemma handleSubmit_kind (P : Props.t) (st : State) (cp : option jsstring) :
  benign (handleSubmit P st cp) \/ starting (handleSubmit P st cp).
Proof.
  destruct (handleSubmit_cases P st cp) as [[_ E] | [_ E]]; rewrite E.
  - left. apply benign_nil.
  - right. split; [eexists; reflexivity | intros st'; auto].
Qed.

Lemma backdrop_onClick_benign (P : Props.t) (target : element) :
  benign (backdrop_onClick P target).
Proof.
  unfold backdrop_onClick. destruct (element_eqb target Backdrop);
    (split; [reflexivity | intros st; auto]).
Qed.

(** A handler reached from the rendered controls starts a request only
    from a snapshot that is not loading. *)
Lemma click_kind (P : Props.t) (st : State) (target : element) (a : bool) :
  benign (click P st target a) \/
  (loading st = false /\ starting (click P st target a)).
Proof.
  unfold click.
  pose proof (backdrop_onClick_benign P target) as BB.
  revert BB. generalize (backdrop_onClick P target) as bd. intros bd BB.
  assert (B1 : forall e, match e with
                         | setLoading _ | setResponse _ | setError _
                         | callAIAssistantDirect _ => False
                         | _ => True
                         end -> benign [e]).
  { intros e He. destruct e; try contradiction;
      (split; [reflexivity | intros st'; auto]). }
  destruct (disabled st target) eqn:D.
  - left. apply benign_app; [apply benign_nil | exact BB].
  - destruct target as [| | |i|k| | |]; simpl in D; cbn [onClick];
      try (left; apply benign_app;
           [first [apply benign_nil | apply B1; exact I] | exact BB]).
    + (* a quick prompt *)
      destruct (nth_error quickPrompts k) as [q|];
        [|left; apply benign_app; [apply benign_nil | exact BB]].
      unfold handleQuickPrompt.
      assert (B : benign [setIntention (QuickPrompt.intention q)])
        by (apply B1; exact I).
      assert (B' : benign [setQuery (QuickPrompt.prompt q)])
        by (apply B1; exact I).
      destruct (handleSubmit_kind P st (Some (QuickPrompt.prompt q))) as [H | H].
      * left. repeat apply benign_app; auto.
      * right. split; [exact D|].
        apply starting_benign; [|exact BB].
        repeat apply benign_starting; auto.
    + (* the ask button *)
      apply orb_false_elim in D. destruct D as [D _].
      destruct (handleSubmit_kind P st None) as [H | H].
      * left. apply benign_app; [exact H | exact BB].
      * right. split; [exact D|].
        apply starting_benign; [exact H | exact BB].
    + (* the apply button *)
      left. apply benign_app; [|exact BB].
      apply benign_no_update; [apply handleApplySuggestion_no_update|].
      unfold handleApplySuggestion.
      destruct (response st) as [r|]; [|reflexivity].
      destruct (Props.onApplySuggestion P); [|reflexivity].
      destruct (truthy (suggestion r)); [|reflexivity].
      destruct (looksLikeFullFile (suggestion r)), a; reflexivity.
Qed.

Lemma onKeyPress_kind (P : Props.t) (st : State) (key : jsstring) :
  benign (onKeyPress P st key) \/
  (loading st = false /\ starting (onKeyPress P st key)).
Proof.
  unfold onKeyPress. simpl. destruct (loading st) eqn:L.
  - left. apply benign_nil.
  - destruct (JS.eqb key Enter); [|left; apply benign_nil].
    destruct (handleSubmit_kind P st None); auto.
Qed.

Lemma onChange_kind (st : State) (value : jsstring) : benign (onChange st value).
Proof.
  unfold onChange. simpl. destruct (loading st);
    (split; [reflexivity | intros st'; auto]).
Qed.

Lemma lifecycle_benign (w : World) (es : list effect) :
  lifecycle_inv w -> benign es -> lifecycle_inv (afterHandler w es).
Proof.
  intros [I1 [I2 [I3 [I4 I5]]]] [R C].
  destruct (C (state w)) as [A [B D]].
  unfold lifecycle_inv, afterHandler. simpl. rewrite R, app_nil_r.
  destruct (mounted w); [rewrite A, B, D|]; auto.
Qed.

Lemma lifecycle_starting (w : World) (es : list effect) :
  lifecycle_inv w -> mounted w = true -> loading (state w) = false ->
  starting es -> lifecycle_inv (afterHandler w es).
Proof.
  intros [I1 [I2 [I3 [I4 I5]]]] M L [[req R] C].
  destruct (C (state w)) as [A [B D]].
  unfold lifecycle_inv, afterHandler. simpl. rewrite R, M, A, B, D, (I1 L).
  simpl. repeat split; auto; discriminate.
Qed.

Lemma lifecycle_handler (w : World) (es : list effect) :
  lifecycle_inv w -> mounted w = true ->
  benign es \/ (loading (state w) = false /\ starting es) ->
  lifecycle_inv (afterHandler w es).
Proof.
  intros I M [B | [L St]].
  - now apply lifecycle_benign.
  - now apply lifecycle_starting.
Qed.

Lemma runEffect_frame (P : Props.t) (w : World) :
  mounted (runEffect P w) = mounted w /\ props (runEffect P w) = props w /\
  state (runEffect P w) = state w /\ inflight (runEffect P w) = inflight w.
Proof. unfold runEffect. destruct (Props.open P); simpl; auto. Qed.

Lemma runCleanup_frame (w : World) :
  mounted (runCleanup w) = mounted w /\ props (runCleanup w) = props w /\
  state (runCleanup w) = state w /\ inflight (runCleanup w) = inflight w.
Proof. unfold runCleanup. destruct (cleanup w); simpl; auto. Qed.

Lemma lifecycle_inv_frame (w w' : World) :
  state w' = state w -> inflight w' = inflight w ->
  (mounted w' = true -> mounted w = true) ->
  lifecycle_inv w -> lifecycle_inv w'.
Proof.
  unfold lifecycle_inv. intros -> -> M [I1 [I2 [I3 [I4 I5]]]].
  repeat split; auto; now apply I4.
Qed.

Lemma lifecycle_inv_step (w w' : World) (e : event) (es : list effect) :
  lifecycle_inv w -> step w e = Some (w', es) -> lifecycle_inv w'.
Proof.
  intros I St.
  destruct e; unfold step in St; step_cases St.
  - (* rendered again, dependencies changed *)
    destruct (runEffect_frame P (runCleanup (withProps w P))) as [A [_ [B C]]].
    destruct (runCleanup_frame (withProps w P)) as [A' [_ [B' C']]].
    apply lifecycle_inv_frame with (w := w); simpl in *; congruence.
  - apply lifecycle_inv_frame with (w := w); simpl; auto.
  - (* unmounted *)
    destruct (runCleanup_frame w) as [_ [_ [B C]]].
    apply lifecycle_inv_frame with (w := w); simpl; auto; discriminate.
  - exact I.
  - apply andb_prop in E. destruct E as [M _].
    apply lifecycle_handler; auto. apply click_kind.
  - apply andb_prop in E. destruct E as [M _].
    apply lifecycle_handler; auto. apply onKeyPress_kind.
  - apply andb_prop in E. destruct E as [M _].
    apply lifecycle_handler; auto. left. apply onChange_kind.
  - (* a call settles: it was the only one in flight *)
    destruct I as [I1 [I2 [I3 [I4 I5]]]].
    destruct (inflight w) as [|r0 [|r1 rest]] eqn:F;
      [destruct n; discriminate | | simpl in I2; lia].
    assert (n = 0) as -> by (destruct n as [|[|n]]; [reflexivity | discriminate..]).
    assert (L : loading (state w) = true).
    { destruct (loading (state w)); [reflexivity|].
      specialize (I1 eq_refl). discriminate. }
    destruct (I4 L) as [Rn En].
    unfold lifecycle_inv. simpl.
    destruct (mounted w) eqn:M.
    + destruct o as [data | err]; simpl; rewrite ?Rn, ?En;
        repeat split; auto; discriminate.
    + repeat split; auto; discriminate.
Qed.

Lemma lifecycle_inv_reachable (w : World) : reachable w -> lifecycle_inv w.
Proof.
  induction 1 as [P | w e w' es R IH St].
  - destruct (runEffect_frame P
                {| mounted := true; props := P; state := initialState;
                   inflight := []; keydown := []; cleanup := None;
                   fresh := 0 |}) as [_ [_ [A B]]].
    unfold lifecycle_inv, mount. rewrite A, B. simpl.
    repeat split; auto; discriminate.
  - exact (lifecycle_inv_step w w' e es IH St).
Qed.

Lemma run_reachable (evs : list event) :
  forall w w' es, reachable w -> run w evs = Some (w', es) -> reachable w'.
Proof.
  induction evs as [|e evs IH]; intros w w' es R H; simpl in H.
  - injection H as <- _. exact R.
  - destruct (step w e) as [[w1 es1]|] eqn:St; [|discriminate].
    destruct (run w1 evs) as [[w2 es2]|] eqn:Rn; [|discriminate].
    injection H as <- _.
    apply (IH w1 w2 es2); [|exact Rn].
    exact (reachable_step w e w1 es1 R St).
Qed.

(** C2, as amended: whenever a call of a mounted component settles, the
    loading cell becomes false and no call is left in flight.  On success
    the response cell holds the returned data and the error cell is null.
    On failure the response cell is null and the error cell holds a message:
    the [message] of the thrown value when that is an [Error] instance (be it
    the empty string), and the fixed, non-empty fallback text for any other
    thrown value; the failure is logged. *)
Theorem settle_outcome (w w' : World) (n : nat) (o : settled)
    (es : list effect) :
  reachable w -> mounted w = true ->
  step w (Settle n o) = Some (w', es) ->
  loading (state w') = false /\ inflight w' = [] /\
  match o with
  | Fulfilled data =>
      response (state w') = Some data /\ error (state w') = None
  | Rejected err =>
      response (state w') = None /\
      In (console_error (lit "AI Assistant error:") err) es /\
      match err with
      | ErrorInstance m => error (state w') = Some m
      | OtherValue _ =>
          error (state w') = Some (lit "Failed to get AI response") /\
          lit "Failed to get AI response" <> []
      end
  end.
Proof.
  intros R M St. pose proof (lifecycle_inv_reachable w R) as I.
  destruct I as [I1 [I2 [I3 [I4 I5]]]].
  unfold step in St. step_cases St.
  destruct (inflight w) as [|r0 [|r1 rest]] eqn:F;
    [destruct n; discriminate | | simpl in I2; lia].
  assert (n = 0) as -> by (destruct n as [|[|n]]; [reflexivity | discriminate..]).
  assert (L : loading (state w) = true).
  { destruct (loading (state w)); [reflexivity|].
    specialize (I1 eq_refl). discriminate. }
  destruct (I4 L) as [Rn En]. simpl. rewrite M.
  destruct o as [data | [m | v]]; simpl; rewrite ?Rn, ?En;
    repeat split; auto; discriminate.
Qed.

(** ** Intentions and the temperature of a request *)

Lemma temperature_injective (i j : Intention) :
  Config.temperature (intentionConfig i) = Config.temperature (intentionConfig j) ->
  i = j.
Proof. destruct i, j; simpl; intros H; try reflexivity; discriminate H. Qed.

Lemma afterHandler_state (w : World) (es : list effect) :
  mounted w = true -> state (afterHandler w es) = commit (state w) es.
Proof. intros M. unfold afterHandler. simpl. now rewrite M. Qed.

(** C5: select an intention, then submit the text of the query cell with the
    ask button or with Enter.  The request that goes out carries the
    temperature of the selected intention (0.1 for fix, 0.2 for optimize,
    0.3 for explain, 0.7 for brainstorm), the code and file name of the
    props, the language of the props in lower case, the query as prompt and
    the fixed context string. *)
Theorem selected_intention_sets_temperature (w : World) (i : Intention)
    (a a' : bool) (submit : event) :
  mounted w = true -> Props.open (props w) = true ->
  loading (state w) = false -> trim (query (state w)) <> [] ->
  submit = Click AskButton a' \/ submit = KeyPress Enter ->
  exists w1 w2 req,
    step w (Click (IntentionButton i) a) = Some (w1, [ setIntention i ]) /\
    step w1 submit =
      Some (w2, [ setLoading true; setError None; setResponse None;
                  callAIAssistantDirect req ]) /\
    inflight w2 = inflight w ++ [ req ] /\
    Request.temperature req =
      match i with
      | fix_ => 0.1 | optimize => 0.2 | explain => 0.3 | brainstorm => 0.7
      end%Q /\
    Request.code req = Props.code (props w) /\
    Request.language req = toLowerCase (Props.language (props w)) /\
    Request.fileName req = Props.fileName (props w) /\
    Request.prompt req = query (state w) /\
    Request.context req =
      lit "WebXR development with A-Frame, Three.js, and modern web technologies".
Proof.
  intros M O L Q Sub.
  set (w1 := afterHandler w [ setIntention i ]).
  assert (S1 : step w (Click (IntentionButton i) a) = Some (w1, [setIntention i])).
  { unfold step, rendered. rewrite M, O. reflexivity. }
  assert (M1 : mounted w1 = true) by exact M.
  assert (P1 : props w1 = props w) by reflexivity.
  assert (F1 : inflight w1 = inflight w) by apply app_nil_r.
  assert (St1 : state w1 = commit (state w) [ setIntention i ])
    by (apply afterHandler_state; exact M).
  clearbody w1.
  assert (Q1 : query (state w1) = query (state w)) by (now rewrite St1).
  assert (L1 : loading (state w1) = false) by (now rewrite St1).
  assert (I1 : intention (state w1) = i) by (now rewrite St1).
  assert (T1 : truthy (trim (query (state w1))) = true).
  { apply truthy_true. now rewrite Q1. }
  destruct (handleSubmit_cases (props w1) (state w1) None) as [[N _] | [_ E]];
    [simpl in N; rewrite Q1 in N; contradiction|].
  simpl in E. rewrite I1, Q1, P1 in E.
  eexists w1, (afterHandler w1 (handleSubmit (props w) (state w1) None)), _.
  split; [exact S1|]. split; [|split].
  - destruct Sub as [-> | ->];
      unfold step, rendered, click, onKeyPress, disabled, backdrop_onClick;
      rewrite M1, P1, O, L1, ?T1; simpl; rewrite ?app_nil_r, E; reflexivity.
  - rewrite E. simpl. now rewrite F1.
  - simpl. repeat split. destruct i; reflexivity.
Qed.

Lemma quickPrompts_not_blank (k : nat) (q : QuickPrompt.t) :
  nth_error quickPrompts k = Some q ->
  truthy (QuickPrompt.prompt q) = true /\
  truthy (trim (QuickPrompt.prompt q)) = true.
Proof.
  intros H. do 4 (destruct k as [|k]; [injection H as <-; vm_compute; auto|]).
  destruct k; discriminate.
Qed.

(** What activating a quick prompt does, from any snapshot. *)
Lemma handleQuickPrompt_catalog (P : Props.t) (st : State) (k : nat)
    (q : QuickPrompt.t) :
  nth_error quickPrompts k = Some q ->
  handleQuickPrompt P st (QuickPrompt.prompt q) (Some (QuickPrompt.intention q)) =
    [ setIntention (QuickPrompt.intention q);
      setQuery (QuickPrompt.prompt q);
      setLoading true; setError None; setResponse None;
      callAIAssistantDirect
        {| Request.code := Props.code P;
           Request.language := toLowerCase (Props.language P);
           Request.fileName := Props.fileName P;
           Request.prompt := QuickPrompt.prompt q;
           Request.context := contextString;
           Request.temperature :=
             Config.temperature (intentionConfig (intention st)) |} ].
Proof.
  intros H. destruct (quickPrompts_not_blank k q H) as [T1 T2].
  unfold handleQuickPrompt, handleSubmit, effectivePrompt.
  rewrite T1, T2. reflexivity.
Qed.

(** C1, on the code: activating an entry of the catalog sets the intention
    cell to the intention of the entry and the query cell to its prompt, and
    issues one request with that prompt verbatim; but the temperature of
    the request is the one of the intention that was selected _before_ the
    activation, so it is not the one of the entry whenever the two
    intentions differ. *)
Theorem quick_prompt_temperature_is_stale (w : World) (k : nat)
    (q : QuickPrompt.t) (a : bool) :
  mounted w = true -> Props.open (props w) = true ->
  loading (state w) = false ->
  nth_error quickPrompts k = Some q ->
  exists w' es req,
    step w (Click (QuickPromptButton k) a) = Some (w', es) /\
    intention (state w') = QuickPrompt.intention q /\
    query (state w') = QuickPrompt.prompt q /\
    requests es = [ req ] /\
    Request.prompt req = QuickPrompt.prompt q /\
    Request.temperature req =
      Config.temperature (intentionConfig (intention (state w))) /\
    (intention (state w) <> QuickPrompt.intention q ->
     Request.temperature req <>
       Config.temperature (intentionConfig (QuickPrompt.intention q))).
Proof.
  intros M O L H.
  assert (K : k < List.length quickPrompts).
  { apply nth_error_Some. rewrite H. discriminate. }
  apply Nat.ltb_lt in K.
  pose proof (handleQuickPrompt_catalog (props w) (state w) k q H) as E.
  eexists. eexists. eexists. split.
  - unfold step, rendered. rewrite M, O, K. simpl.
    unfold click, disabled, onClick. rewrite L, H, E. simpl. reflexivity.
  - simpl. rewrite M. simpl. repeat split.
    intros D C. apply D. now apply temperature_injective.
Qed.

(** ** Further properties of the dialog *)

(** *** The life cycle, as a user sees it *)

(** X1: through the controls of the dialog at most one call is ever in
    flight, and the loading cell tells it: a call in flight means loading,
    and a mounted dialog that is loading has its call in flight.  While
    loading the response and error cells are both null, and they are never
    both filled. *)
Theorem at_most_one_call_in_flight (w : World) :
  reachable w ->
  List.length (inflight w) <= 1 /\
  (inflight w <> [] -> loading (state w) = true) /\
  (mounted w = true -> loading (state w) = true -> inflight w <> []) /\
  (loading (state w) = true ->
     response (state w) = None /\ error (state w) = None) /\
  (response (state w) = None \/ error (state w) = None).
Proof.
  intros R. destruct (lifecycle_inv_reachable w R) as [I1 [I2 [I3 [I4 I5]]]].
  repeat split; auto.
  - intros N. destruct (loading (state w)); [reflexivity|].
    elim N. now apply I1.
  - intros M L E. rewrite (I3 M E) in L. discriminate.
  - now apply I4.
  - now apply I4.
Qed.

(** The panel the cells call for. *)
Definition panelOf (st : State) : panel :=
  if loading st then LoadingPanel
  else match response st, error st with
       | Some r, _ => ResponsePanel r
       | None, Some m => if truthy m then ErrorPanel m else WelcomePanel
       | None, None => WelcomePanel
       end.

(** X2: in every state the dialog can reach, the response area shows exactly
    one of its four panels: the loading indicator while loading, else the
    response if there is one, else the error if it is a non-empty message,
    else the welcome text (so an error with an empty message shows the
    welcome text). *)
Theorem response_area_shows_one_panel (w : World) :
  reachable w -> responseArea (state w) = [ panelOf (state w) ].
Proof.
  intros R. destruct (lifecycle_inv_reachable w R) as [_ [_ [_ [I4 I5]]]].
  unfold responseArea, panelOf.
  destruct (loading (state w)).
  - destruct (I4 eq_refl) as [-> ->]. reflexivity.
  - destruct I5 as [-> | ->].
    + destruct (error (state w)) as [m|]; [|reflexivity].
      simpl. destruct (truthy m); reflexivity.
    + destruct (response (state w)); reflexivity.
Qed.

(** The avatar that goes with a panel. *)
Definition moodOf (p : panel) : Avatar :=
  match p with
  | LoadingPanel =>
      {| isThinking := true; isHappy := false; isConfused := false |}
  | ErrorPanel _ =>
      {| isThinking := false; isHappy := false; isConfused := true |}
  | ResponsePanel _ =>
      {| isThinking := false; isHappy := true; isConfused := false |}
  | WelcomePanel =>
      {| isThinking := false; isHappy := false; isConfused := false |}
  end.

(** X3: in every reachable state the avatar of the header agrees with the
    panel on display: thinking with the loading indicator, happy with a
    response, confused with an error message, none of the three with the
    welcome text; so at most one of its three flags is set. *)
Theorem header_avatar_matches_panel (w : World) :
  reachable w -> headerAvatar (state w) = moodOf (panelOf (state w)).
Proof.
  intros R. destruct (lifecycle_inv_reachable w R) as [_ [_ [_ [I4 I5]]]].
  unfold headerAvatar, panelOf.
  destruct (loading (state w)).
  - destruct (I4 eq_refl) as [-> ->]. reflexivity.
  - destruct I5 as [-> | ->].
    + destruct (error (state w)) as [m|]; [|reflexivity].
      simpl. destruct (truthy m); reflexivity.
    + destruct (response (state w)); reflexivity.
Qed.

(** *** The controls that submit *)

(** X4: a click on the ask button either does nothing, when the button is
    disabled (loading, or a blank query), or submits: the guard of
    [handleSubmit] never stops a click on the enabled button.  The prompt of
    the request is the query as typed, untrimmed. *)
Theorem ask_click_submits_query_as_typed (P : Props.t) (st : State)
    (a : bool) :
  click P st AskButton a =
    if loading st || negb (truthy (trim (query st))) then []
    else [ setLoading true; setError None; setResponse None;
           callAIAssistantDirect
             {| Request.code := Props.code P;
                Request.language := toLowerCase (Props.language P);
                Request.fileName := Props.fileName P;
                Request.prompt := query st;
                Request.context := contextString;
                Request.temperature :=
                  Config.temperature (intentionConfig (intention st)) |} ].
Proof.
  unfold click, disabled, onClick, backdrop_onClick. simpl.
  rewrite app_nil_r.
  destruct (loading st || negb (truthy (trim (query st)))) eqn:D;
    [reflexivity|].
  apply orb_false_elim in D. destruct D as [_ D].
  apply negb_false_iff, truthy_true in D.
  destruct (handleSubmit_cases P st None) as [[N _] | [_ E]];
    [contradiction | exact E].
Qed.

(** X5: in the query input, Enter does what a click on the ask button does,
    in every snapshot (nothing while loading or on a blank query); any other
    key does nothing. *)
Theorem enter_is_ask_click (P : Props.t) (st : State) (key : jsstring)
    (a : bool) :
  onKeyPress P st key =
    if JS.eqb key Enter then click P st AskButton a else [].
Proof.
  unfold onKeyPress, click, disabled, onClick, backdrop_onClick. simpl.
  rewrite app_nil_r.
  destruct (loading st); simpl.
  - destruct (JS.eqb key Enter); reflexivity.
  - destruct (JS.eqb key Enter); [|reflexivity].
    destruct (truthy (trim (query st))) eqn:T; simpl; [reflexivity|].
    apply handleSubmit_blank_query. now apply truthy_false.
Qed.

(** *** The confirmation *)

(** X6: the apply handler shows [window.confirm] exactly when there is a
    response, an apply callback was supplied, and the suggestion contains
    ['<!DOCTYPE'] or ['<html'] somewhere (as written: the test is exact in
    case); it shows it once, with the fixed text, whatever the answer will
    be. *)
Theorem confirm_shown_iff_marker (P : Props.t) (st : State) (a : bool) :
  (confirms (handleApplySuggestion P st a) = [ confirmText ] <->
   exists r f pre post,
     response st = Some r /\ Props.onApplySuggestion P = Some f /\
     (suggestion r = pre ++ lit "<!DOCTYPE" ++ post \/
      suggestion r = pre ++ lit "<html" ++ post)) /\
  (confirms (handleApplySuggestion P st a) = [ confirmText ] \/
   confirms (handleApplySuggestion P st a) = []).
Proof.
  assert (M : forall s, looksLikeFullFile s = true <->
                        exists pre post, s = pre ++ lit "<!DOCTYPE" ++ post \/
                                         s = pre ++ lit "<html" ++ post).
  { intros s. unfold looksLikeFullFile.
    rewrite orb_true_iff, !includes_substring. split.
    - intros [[pre [post E]] | [pre [post E]]]; exists pre, post; auto.
    - intros [pre [post [E | E]]]; [left | right]; eauto. }
  assert (T : forall s, looksLikeFullFile s = true -> truthy s = true).
  { intros s H. apply truthy_true. unfold looksLikeFullFile in H.
    apply orb_true_iff in H.
    destruct H as [H | H]; apply includes_nonempty in H; auto; discriminate. }
  unfold handleApplySuggestion.
  destruct (response st) as [r|].
  2:{ split; [|right; reflexivity]. split; [discriminate|].
      intros [r [f [pre [post [E _]]]]]. discriminate. }
  destruct (Props.onApplySuggestion P) as [f|].
  2:{ split; [|right; reflexivity]. split; [discriminate|].
      intros [r' [f [pre [post [_ [E _]]]]]]. discriminate. }
  destruct (looksLikeFullFile (suggestion r)) eqn:L.
  - rewrite (T _ L). split; [|left; destruct a; reflexivity]. split.
    + intros _. apply M in L. destruct L as [pre [post L]].
      exists r, f, pre, post. auto.
    + intros _. destruct a; reflexivity.
  - assert (C : forall es, (if truthy (suggestion r) then
                   [invoke_onApplySuggestion f (suggestion r);
                    invoke_onClose (Props.onClose P)] else []) = es ->
                 confirms es = []).
    { intros es <-. destruct (truthy (suggestion r)); reflexivity. }
    rewrite (C _ eq_refl). split; [|right; reflexivity]. split; [discriminate|].
    intros [r' [f' [pre [post [E [_ H]]]]]]. injection E as <-.
    assert (L' : looksLikeFullFile (suggestion r) = true)
      by (apply M; eauto).
    rewrite L' in L. discriminate.
Qed.

(** *** Where requests and callbacks come from *)

Lemma JS_eqb_eq (a b : jsstring) : JS.eqb a b = true <-> a = b.
Proof.
  unfold JS.eqb. destruct (list_eq_dec N.eq_dec a b); split;
    congruence.
Qed.

Lemma handleSubmit_request (P : Props.t) (st : State)
    (cp : option jsstring) (req : Request.t) :
  In req (requests (handleSubmit P st cp)) ->
  handleSubmit P st cp =
    [ setLoading true; setError None; setResponse None;
      callAIAssistantDirect req ] /\
  req = {| Request.code := Props.code P;
           Request.language := toLowerCase (Props.language P);
           Request.fileName := Props.fileName P;
           Request.prompt := effectivePrompt cp (query st);
           Request.context := contextString;
           Request.temperature :=
             Config.temperature (intentionConfig (intention st)) |} /\
  trim (effectivePrompt cp (query st)) <> [].
Proof.
  destruct (handleSubmit_cases P st cp) as [[_ E] | [N E]]; rewrite E; simpl.
  - contradiction.
  - intros [<- | []]. auto.
Qed.

Lemma handleEscape_only_closes (ls : list Listener) (key : jsstring) :
  requests (flat_map (fun l => handleEscape l key) ls) = [] /\
  applies (flat_map (fun l => handleEscape l key) ls) = [] /\
  confirms (flat_map (fun l => handleEscape l key) ls) = [] /\
  forallb (fun e => negb (is_update e))
          (flat_map (fun l => handleEscape l key) ls) = true.
Proof.
  induction ls as [|l ls [A [B [C D]]]]; simpl; [auto|].
  unfold handleEscape at 1 3 5 7.
  destruct (JS.eqb key Escape && seenOpen l); simpl; auto.
Qed.

Lemma resume_only_updates (o : settled) :
  requests (handleSubmit_resume o) = [] /\
  applies (handleSubmit_resume o) = [] /\
  confirms (handleSubmit_resume o) = [] /\
  closes (handleSubmit_resume o) = [].
Proof. destruct o; simpl; auto. Qed.

Lemma handleApplySuggestion_requests (P : Props.t) (st : State) (a : bool) :
  requests (handleApplySuggestion P st a) = [].
Proof.
  unfold handleApplySuggestion.
  destruct (response st) as [r|]; [|reflexivity].
  destruct (Props.onApplySuggestion P); [|reflexivity].
  destruct (truthy (suggestion r)); [|reflexivity].
  destruct (looksLikeFullFile (suggestion r)), a; reflexivity.
Qed.

(** X7: whatever happens to the dialog, a request goes out only on Enter in
    the query input, on a click on the ask button or on a click on a quick
    prompt, only from an open, mounted dialog that is not loading, and one
    at a time.  Its prompt is never blank (it is the prompt of the catalog
    entry for a quick prompt), its other fields are the code, language (in
    lower case) and file name of the props, the fixed context and the
    temperature of the intention cell of that render; after the event the
    dialog is loading and the call is in flight. *)
Theorem requests_come_from_submit_controls (w w' : World) (e : event)
    (es : list effect) (req : Request.t) :
  step w e = Some (w', es) ->
  In req (requests es) ->
  requests es = [ req ] /\
  mounted w = true /\ Props.open (props w) = true /\
  loading (state w) = false /\
  (e = KeyPress Enter \/
   (exists a, e = Click AskButton a) \/
   (exists k a q, e = Click (QuickPromptButton k) a /\
                  nth_error quickPrompts k = Some q /\
                  Request.prompt req = QuickPrompt.prompt q)) /\
  trim (Request.prompt req) <> [] /\
  Request.code req = Props.code (props w) /\
  Request.language req = toLowerCase (Props.language (props w)) /\
  Request.fileName req = Props.fileName (props w) /\
  Request.context req = contextString /\
  Request.temperature req =
    Config.temperature (intentionConfig (intention (state w))) /\
  loading (state w') = true /\
  inflight w' = inflight w ++ [ req ].
Proof.
  intros St In_.
  destruct e as [P' | | key | target a | key | value | n o];
    unfold step in St; step_cases St; simpl in In_; try contradiction.
  - (* a key press in the document *)
    destruct (handleEscape_only_closes (keydown w) key) as [A _].
    rewrite A in In_. contradiction.
  - (* a click *)
    apply andb_prop in E. destruct E as [M Rd].
    unfold rendered in Rd. apply andb_prop in Rd. destruct Rd as [O Rd].
    revert In_. unfold click.
    rewrite requests_app.
    destruct (backdrop_onClick_benign (props w) target) as [B _]. rewrite B.
    rewrite app_nil_r.
    destruct (disabled (state w) target) eqn:D; [contradiction|].
    destruct target as [| | |i|k| | |]; simpl in D; cbn [onClick];
      try contradiction.
    + (* a quick prompt *)
      destruct (nth_error quickPrompts k) as [q|] eqn:Hk; [|contradiction].
      rewrite (handleQuickPrompt_catalog (props w) (state w) k q Hk).
      destruct (quickPrompts_not_blank k q Hk) as [_ T2].
      apply truthy_true in T2.
      simpl. intros [<- | []]. unfold afterHandler. simpl. rewrite M. simpl.
      unfold backdrop_onClick. simpl. rewrite ?app_nil_r.
      repeat split; auto.
      right. right. exists k, a, q. auto.
    + (* the ask button *)
      intros H. destruct (handleSubmit_request _ _ _ _ H) as [E [Rq N]].
      apply orb_false_elim in D. destruct D as [D _].
      unfold afterHandler, backdrop_onClick. simpl. rewrite E, M. simpl.
      rewrite Rq in *. simpl in *.
      repeat split; auto. right. left. eauto.
    + (* the apply button *)
      rewrite handleApplySuggestion_requests. contradiction.
  - (* a key press in the query input *)
    apply andb_prop in E. destruct E as [M Rd].
    unfold rendered in Rd. apply andb_prop in Rd. destruct Rd as [O _].
    revert In_. unfold onKeyPress. simpl.
    destruct (loading (state w)) eqn:L; [contradiction|].
    destruct (JS.eqb key Enter) eqn:K; [|contradiction].
    apply JS_eqb_eq in K. subst key.
    intros H. destruct (handleSubmit_request _ _ _ _ H) as [E [Rq N]].
    unfold afterHandler. simpl. rewrite E, M. simpl.
    rewrite Rq in *. simpl in *.
    repeat split; auto.
  - (* an edit of the query input *)
    revert In_. unfold onChange. destruct (disabled (state w) QueryInput);
      simpl; contradiction.
  - (* a call settles *)
    destruct (resume_only_updates o) as [A _]. rewrite A in In_. contradiction.
Qed.

Lemma applies_app (es es' : list effect) :
  applies (es ++ es') = applies es ++ applies es'.
Proof. unfold applies. apply flat_map_app. Qed.

Lemma confirms_app (es es' : list effect) :
  confirms (es ++ es') = confirms es ++ confirms es'.
Proof. unfold confirms. apply flat_map_app. Qed.

Lemma handleSubmit_applies (P : Props.t) (st : State) (cp : option jsstring) :
  applies (handleSubmit P st cp) = [] /\ confirms (handleSubmit P st cp) = [].
Proof.
  destruct (handleSubmit_cases P st cp) as [[_ E] | [_ E]]; rewrite E; auto.
Qed.

(** Apart from the apply control, no element applies or asks anything. *)
Lemma click_applies_elsewhere (P : Props.t) (st : State) (target : element)
    (a : bool) :
  target <> ApplyButton ->
  applies (click P st target a) = [] /\ confirms (click P st target a) = [].
Proof.
  intros N. unfold click. rewrite applies_app, confirms_app.
  assert (B : applies (backdrop_onClick P target) = [] /\
              confirms (backdrop_onClick P target) = []).
  { unfold backdrop_onClick. destruct (element_eqb target Backdrop); auto. }
  destruct B as [-> ->]. rewrite !app_nil_r.
  destruct (disabled st target); [auto|].
  destruct target as [| | |i|k| | |]; simpl; auto.
  - destruct (nth_error quickPrompts k) as [q|]; [|auto].
    unfold handleQuickPrompt. rewrite !applies_app, !confirms_app.
    destruct (handleSubmit_applies P st (Some (QuickPrompt.prompt q)))
      as [-> ->]. auto.
  - apply handleSubmit_applies.
  - contradiction.
Qed.

(** X8: the code of the caller is touched in one way only.  The apply
    callback is invoked by nothing but a click on the apply control of an
    open dialog, with a response whose suggestion is not empty; it is
    invoked once, with that suggestion as it is, and the close callback
    follows at once.  Before it [window.confirm] is shown exactly when the
    suggestion looks like a full file, and then the user has consented.  The
    click changes no cell and starts no call. *)
Theorem apply_callback_only_from_apply_control (w w' : World) (e : event)
    (es : list effect) :
  step w e = Some (w', es) ->
  applies es <> [] ->
  exists a r f,
    e = Click ApplyButton a /\
    mounted w = true /\ Props.open (props w) = true /\
    response (state w) = Some r /\ suggestion r <> [] /\
    Props.onApplySuggestion (props w) = Some f /\
    es = (if looksLikeFullFile (suggestion r)
          then [ window_confirm confirmText ] else [])
         ++ [ invoke_onApplySuggestion f (suggestion r);
              invoke_onClose (Props.onClose (props w)) ] /\
    (looksLikeFullFile (suggestion r) = true -> a = true) /\
    state w' = state w /\ inflight w' = inflight w.
Proof.
  intros St A.
  destruct e as [P' | | key | target a | key | value | n o];
    unfold step in St; step_cases St; simpl in A; try (elim A; reflexivity).
  - destruct (handleEscape_only_closes (keydown w) key) as [_ [B _]].
    contradiction.
  - apply andb_prop in E. destruct E as [M Rd].
    unfold rendered in Rd. apply andb_prop in Rd. destruct Rd as [O _].
    assert (T : target = ApplyButton).
    { destruct target; try reflexivity; exfalso; apply A;
        apply click_applies_elsewhere; discriminate. }
    subst target. exists a.
    assert (K : click (props w) (state w) ApplyButton a =
                handleApplySuggestion (props w) (state w) a)
      by (unfold click, backdrop_onClick; simpl; apply app_nil_r).
    rewrite K in *.
    assert (Fr : state (afterHandler w (handleApplySuggestion (props w) (state w) a))
                 = state w /\
                 inflight (afterHandler w (handleApplySuggestion (props w) (state w) a))
                 = inflight w).
    { unfold afterHandler. simpl.
      rewrite handleApplySuggestion_requests, app_nil_r, M.
      rewrite commit_no_update by apply handleApplySuggestion_no_update.
      auto. }
    destruct Fr as [F1 F2]. rewrite F1, F2. clear F1 F2 K.
    revert A. unfold handleApplySuggestion.
    destruct (response (state w)) as [r|]; [|intros A; elim A; reflexivity].
    destruct (Props.onApplySuggestion (props w)) as [f|];
      [|intros A; elim A; reflexivity].
    destruct (truthy (suggestion r)) eqn:T; [|intros A; elim A; reflexivity].
    apply truthy_true in T. exists r, f.
    destruct (looksLikeFullFile (suggestion r)), a; simpl in *;
      try (elim A; reflexivity); repeat split; auto; discriminate.
  - apply andb_prop in E. destruct E as [M _].
    exfalso. apply A. unfold onKeyPress.
    destruct (disabled (state w) QueryInput); [reflexivity|].
    destruct (JS.eqb key Enter); [apply handleSubmit_applies | reflexivity].
  - exfalso. apply A. unfold onChange.
    destruct (disabled (state w) QueryInput); reflexivity.
  - destruct (resume_only_updates o) as [_ [B _]]. contradiction.
Qed.

(** X9: a dialog that is closed or unmounted is inert.  No click or key
    press in the dialog can happen, Escape reaches no listener, and whatever
    else happens (a new render, the unmount, a key press elsewhere, a call
    that settles late) issues no request, invokes no callback and asks no
    confirmation.  The cells change only when a call settles, and not even
    then after the unmount. *)
Theorem closed_dialog_is_inert (w w' : World) (e : event)
    (es : list effect) :
  reachable w ->
  mounted w && Props.open (props w) = false ->
  step w e = Some (w', es) ->
  requests es = [] /\ closes es = [] /\ applies es = [] /\ confirms es = [] /\
  (forall target a, e <> Click target a) /\
  (forall key, e <> KeyPress key) /\ (forall value, e <> Change value) /\
  ((forall n o, e <> Settle n o) \/ mounted w = false -> state w' = state w).
Proof.
  intros R C St.
  pose proof (listener_inv_reachable w R) as L.
  assert (K : keydown w = []).
  { unfold listener_inv in L. destruct (cleanup w).
    - destruct L as [M [O _]]. rewrite M, O in C. discriminate.
    - apply L. }
  assert (U : forall target, mounted w && rendered (props w) (state w) target = false).
  { intros target. unfold rendered.
    destruct (mounted w), (Props.open (props w)); try reflexivity.
    discriminate. }
  destruct e as [P' | | key | target a | key | value | n o];
    unfold step in St; rewrite ?U in St; try discriminate;
    step_cases St.
  - repeat split; try discriminate.
    intros _. destruct (runEffect_frame P' (runCleanup (withProps w P')))
      as [_ [_ [A _]]].
    destruct (runCleanup_frame (withProps w P')) as [_ [_ [B _]]].
    rewrite A, B. reflexivity.
  - repeat split; try discriminate.
  - repeat split; try discriminate.
    intros _. simpl. apply runCleanup_frame.
  - rewrite K. simpl. repeat split; try discriminate.
  - destruct (resume_only_updates o) as [A [B [D F]]].
    repeat split; try discriminate; auto.
    intros [H | H]; [elim (H n o); reflexivity|].
    simpl. rewrite H. reflexivity.
Qed.

(** *** While a call is in flight *)

(** Effects that leave the query and the three life-cycle cells alone and
    issue nothing. *)
Definition harmless (e : effect) : bool :=
  match e with
  | setIntention _ | invoke_onClose _ | invoke_onApplySuggestion _ _
  | window_confirm _ | console_error _ _ => true
  | _ => false
  end.

Lemma commit_harmless (es : list effect) :
  forallb harmless es = true ->
  requests es = [] /\
  forall st, query (commit st es) = query st /\
             response (commit st es) = response st /\
             error (commit st es) = error st /\
             loading (commit st es) = loading st.
Proof.
  induction es as [|e es IH]; simpl; intros H.
  - auto.
  - apply andb_prop in H. destruct H as [He H].
    destruct (IH H) as [R C]. split.
    + rewrite R. destruct e; simpl in He; try discriminate; reflexivity.
    + intros st. unfold commit. simpl. fold (commit (commit1 st e) es).
      destruct (C (commit1 st e)) as [A [B [D F]]].
      rewrite A, B, D, F.
      destruct e; simpl in He; try discriminate; auto.
Qed.

Lemma click_while_loading (P : Props.t) (st : State) (target : element)
    (a : bool) :
  loading st = true -> forallb harmless (click P st target a) = true.
Proof.
  intros L. unfold click. rewrite forallb_app.
  assert (B : forallb harmless (backdrop_onClick P target) = true)
    by (unfold backdrop_onClick; destruct (element_eqb target Backdrop);
        reflexivity).
  rewrite B, andb_true_r.
  destruct target as [| | |i|k| | |]; simpl; rewrite ?L; try reflexivity.
  unfold handleApplySuggestion.
  destruct (response st) as [r|]; [|reflexivity].
  destruct (Props.onApplySuggestion P); [|reflexivity].
  destruct (truthy (suggestion r)); [|reflexivity].
  destruct (looksLikeFullFile (suggestion r)), a; reflexivity.
Qed.

(** X10: while the loading cell is set the compose controls are dead: until
    the call settles, no click, key press or edit, and no new render, issues
    a request or changes the query, the response, the error or the loading
    cell (the intention can still be changed, and the dialog closed). *)
Theorem loading_freezes_the_compose_controls (w w' : World) (e : event)
    (es : list effect) :
  loading (state w) = true ->
  step w e = Some (w', es) ->
  (forall n o, e <> Settle n o) ->
  requests es = [] /\ inflight w' = inflight w /\
  query (state w') = query (state w) /\
  response (state w') = response (state w) /\
  error (state w') = error (state w) /\
  loading (state w') = true.
Proof.
  intros L St NS.
  assert (H : forall es0, forallb harmless es0 = true ->
                requests es0 = [] /\
                inflight (afterHandler w es0) = inflight w /\
                query (state (afterHandler w es0)) = query (state w) /\
                response (state (afterHandler w es0)) = response (state w) /\
                error (state (afterHandler w es0)) = error (state w) /\
                loading (state (afterHandler w es0)) = true).
  { intros es0 Hh. destruct (commit_harmless es0 Hh) as [Rq C].
    destruct (C (state w)) as [A [B [D F]]].
    unfold afterHandler. simpl. rewrite Rq, app_nil_r.
    destruct (mounted w); rewrite ?A, ?B, ?D, ?F; repeat split; auto. }
  destruct e as [P' | | key | target a | key | value | n o];
    unfold step in St; step_cases St.
  - destruct (runEffect_frame P' (runCleanup (withProps w P')))
      as [_ [_ [A B]]].
    destruct (runCleanup_frame (withProps w P')) as [_ [_ [A' B']]].
    rewrite A, B, A', B'. simpl. repeat split; auto.
  - simpl. repeat split; auto.
  - destruct (runCleanup_frame w) as [_ [_ [A B]]]. simpl.
    rewrite A, B. repeat split; auto.
  - destruct (handleEscape_only_closes (keydown w) key) as [A _]. repeat split; auto.
  - apply H, click_while_loading, L.
  - apply H. unfold onKeyPress. simpl. rewrite L. reflexivity.
  - apply H. unfold onChange. simpl. rewrite L. reflexivity.
  - elim (NS n o). reflexivity.
Qed.

(** *** Closing does not cancel *)

Lemma step_Rerender (w : World) (P' : Props.t) :
  mounted w = true ->
  exists w', step w (Rerender P') = Some (w', []) /\
             mounted w' = true /\ props w' = P' /\
             state w' = state w /\ inflight w' = inflight w.
Proof.
  intros M. unfold step. rewrite M.
  destruct (depsChanged (props w) P').
  - eexists. split; [reflexivity|].
    destruct (runEffect_frame P' (runCleanup (withProps w P')))
      as [A [B [C D]]].
    destruct (runCleanup_frame (withProps w P')) as [A' [B' [C' D']]].
    rewrite A, B, C, D, A', B', C', D'. simpl. auto.
  - eexists. split; [reflexivity|]. simpl. auto.
Qed.

Lemma step_Settle_sole (w : World) (r : Request.t) (o : settled) :
  mounted w = true -> inflight w = [ r ] ->
  exists w', step w (Settle 0 o) = Some (w', handleSubmit_resume o) /\
             mounted w' = true /\ props w' = props w /\
             state w' = commit (state w) (handleSubmit_resume o) /\
             inflight w' = [].
Proof.
  intros M F. unfold step. rewrite F. simpl.
  eexists. split; [reflexivity|]. simpl. rewrite M. auto.
Qed.

(** X11: closing the dialog neither cancels the call in flight nor resets
    the cells.  If the caller closes the dialog while it is loading, the
    call then succeeds, and the caller opens the dialog again, then the
    response that arrived in between is stored and is what the reopened
    dialog displays, with its apply control; the query and the intention are
    as they were left. *)
Theorem response_arriving_while_closed_is_kept (w : World)
    (closed reopened : Props.t) (data : AIResponse) :
  reachable w -> mounted w = true -> loading (state w) = true ->
  Props.open closed = false -> Props.open reopened = true ->
  exists w',
    run w [ Rerender closed; Settle 0 (Fulfilled data); Rerender reopened ]
      = Some (w', [ setResponse (Some data); setLoading false ]) /\
    props w' = reopened /\ inflight w' = [] /\
    response (state w') = Some data /\ loading (state w') = false /\
    error (state w') = None /\
    query (state w') = query (state w) /\
    intention (state w') = intention (state w) /\
    responseArea (state w') = [ ResponsePanel data ] /\
    rendered (props w') (state w') ApplyButton = true.
Proof.
  intros R M L Oc Oo.
  destruct (lifecycle_inv_reachable w R) as [_ [I2 [I3 [I4 _]]]].
  destruct (I4 L) as [Rn En].
  destruct (inflight w) as [|r [|r' rest]] eqn:F.
  - rewrite (I3 M eq_refl) in L. discriminate.
  - destruct (step_Rerender w closed M) as [w1 [S1 [M1 [P1 [St1 F1]]]]].
    rewrite F in F1.
    destruct (step_Settle_sole w1 r (Fulfilled data) M1 F1)
      as [w2 [S2 [M2 [P2 [St2 F2]]]]].
    destruct (step_Rerender w2 reopened M2) as [w3 [S3 [M3 [P3 [St3 F3]]]]].
    exists w3. cbn [run]. rewrite S1, S2, S3. simpl.
    split; [reflexivity|].
    rewrite P3, F3, F2, St3, St2, St1. simpl.
    unfold responseArea, rendered. simpl. rewrite En, Oo.
    repeat split; reflexivity.
  - simpl in I2. lia.
Qed.

(** *** After a quick prompt *)

Lemma step_quick (w : World) (k : nat) (q : QuickPrompt.t) (a : bool) :
  mounted w = true -> Props.open (props w) = true ->
  loading (state w) = false -> nth_error quickPrompts k = Some q ->
  exists w1 r1,
    step w (Click (QuickPromptButton k) a) =
      Some (w1, [ setIntention (QuickPrompt.intention q);
                  setQuery (QuickPrompt.prompt q);
                  setLoading true; setError None; setResponse None;
                  callAIAssistantDirect r1 ]) /\
    mounted w1 = true /\ props w1 = props w /\
    inflight w1 = inflight w ++ [ r1 ] /\
    intention (state w1) = QuickPrompt.intention q /\
    Request.prompt r1 = QuickPrompt.prompt q /\
    Request.temperature r1 =
      Config.temperature (intentionConfig (intention (state w))).
Proof.
  intros M O L H.
  assert (K : k < List.length quickPrompts).
  { apply nth_error_Some. rewrite H. discriminate. }
  apply Nat.ltb_lt in K.
  pose proof (handleQuickPrompt_catalog (props w) (state w) k q H) as E.
  eexists. eexists. split.
  - unfold step, rendered. rewrite M, O, K. simpl.
    unfold click, disabled, onClick. rewrite L, H, E. simpl. reflexivity.
  - simpl. rewrite M. simpl. repeat split.
Qed.

Lemma step_Change (w : World) (v : jsstring) :
  mounted w = true -> Props.open (props w) = true ->
  loading (state w) = false ->
  exists w1,
    step w (Change v) = Some (w1, [ setQuery v ]) /\
    mounted w1 = true /\ props w1 = props w /\ inflight w1 = inflight w /\
    query (state w1) = v /\ intention (state w1) = intention (state w) /\
    loading (state w1) = false.
Proof.
  intros M O L. unfold step, rendered, onChange. simpl.
  rewrite M, O, L. simpl. eexists. split; [reflexivity|].
  simpl. rewrite M, app_nil_r. simpl. repeat split; auto.
Qed.

Lemma step_ask (w : World) (a : bool) :
  mounted w = true -> Props.open (props w) = true ->
  loading (state w) = false -> trim (query (state w)) <> [] ->
  exists w1 r1,
    step w (Click AskButton a) =
      Some (w1, [ setLoading true; setError None; setResponse None;
                  callAIAssistantDirect r1 ]) /\
    Request.prompt r1 = query (state w) /\
    Request.temperature r1 =
      Config.temperature (intentionConfig (intention (state w))).
Proof.
  intros M O L Q.
  destruct (handleSubmit_cases (props w) (state w) None) as [[N _] | [_ E]];
    [contradiction|].
  apply truthy_true in Q.
  eexists. eexists. split.
  - unfold step, rendered, click, disabled, onClick, backdrop_onClick.
    rewrite M, O, L, Q. simpl. rewrite app_nil_r, E. reflexivity.
  - simpl. auto.
Qed.

(** X12: the stale temperature is that of the activation only.  Once the
    call of a quick prompt has settled, either way, a question typed and
    sent with the ask button goes out with the temperature of the intention
    of that quick prompt, while the request of the quick prompt itself had
    the temperature of the intention selected before it. *)
Theorem followup_carries_the_quick_prompt_intention (w : World) (k : nat)
    (q : QuickPrompt.t) (a a' : bool) (o : settled) (v : jsstring) :
  reachable w -> mounted w = true -> Props.open (props w) = true ->
  loading (state w) = false ->
  nth_error quickPrompts k = Some q -> trim v <> [] ->
  exists w' es r1 r2,
    run w [ Click (QuickPromptButton k) a; Settle 0 o; Change v;
            Click AskButton a' ] = Some (w', es) /\
    requests es = [ r1; r2 ] /\
    Request.prompt r1 = QuickPrompt.prompt q /\
    Request.temperature r1 =
      Config.temperature (intentionConfig (intention (state w))) /\
    Request.prompt r2 = v /\
    Request.temperature r2 =
      Config.temperature (intentionConfig (QuickPrompt.intention q)).
Proof.
  intros R M O L H V.
  destruct (lifecycle_inv_reachable w R) as [I1 _].
  pose proof (I1 L) as F.
  destruct (step_quick w k q a M O L H)
    as [w1 [r1 [S1 [M1 [P1 [F1 [In1 [Pr1 T1]]]]]]]].
  rewrite F in F1. simpl in F1.
  destruct (step_Settle_sole w1 r1 o M1 F1) as [w2 [S2 [M2 [P2 [St2 F2]]]]].
  assert (L2 : loading (state w2) = false)
    by (rewrite St2; destruct o; reflexivity).
  assert (In2 : intention (state w2) = QuickPrompt.intention q)
    by (rewrite St2; destruct o; exact In1).
  assert (O2 : Props.open (props w2) = true) by (now rewrite P2, P1).
  destruct (step_Change w2 v M2 O2 L2)
    as [w3 [S3 [M3 [P3 [F3 [Q3 [In3 L3]]]]]]].
  assert (O3 : Props.open (props w3) = true) by (now rewrite P3).
  assert (V3 : trim (query (state w3)) <> []) by (now rewrite Q3).
  destruct (step_ask w3 a' M3 O3 L3 V3) as [w4 [r2 [S4 [Pr2 T2]]]].
  exists w4. eexists. exists r1, r2. split.
  - cbn [run]. rewrite S1, S2, S3, S4. reflexivity.
  - rewrite Pr2, T2, Q3, In3, In2.
    repeat split; auto. destruct o; reflexivity.
Qed.

(** X13: [handleQuickPrompt] on any prompt and optional intention.  It
    always queues the prompt for the query cell, after the intention when
    one is given (none given: the intention cell is not written).  A prompt
    that is not blank is then submitted as it is, with the temperature of
    the intention cell of the render; a non-empty prompt of white space only
    is not submitted; the empty prompt is falsy, so what is submitted in its
    place is the query cell of the render, the one being overwritten. *)
Theorem handleQuickPrompt_any_prompt (P : Props.t) (st : State)
    (p : jsstring) (i : option Intention) :
  (trim p <> [] ->
   handleQuickPrompt P st p i =
     match i with Some j => [ setIntention j ] | None => [] end
     ++ [ setQuery p;
          setLoading true; setError None; setResponse None;
          callAIAssistantDirect
            {| Request.code := Props.code P;
               Request.language := toLowerCase (Props.language P);
               Request.fileName := Props.fileName P;
               Request.prompt := p;
               Request.context := contextString;
               Request.temperature :=
                 Config.temperature (intentionConfig (intention st)) |} ]) /\
  (p <> [] -> trim p = [] ->
   handleQuickPrompt P st p i =
     match i with Some j => [ setIntention j ] | None => [] end
     ++ [ setQuery p ]) /\
  (p = [] ->
   handleQuickPrompt P st p i =
     match i with Some j => [ setIntention j ] | None => [] end
     ++ [ setQuery [] ] ++ handleSubmit P st None).
Proof.
  unfold handleQuickPrompt. repeat split.
  - intros T. assert (N : p <> []) by (intros ->; apply T; reflexivity).
    apply truthy_true in N.
    destruct (handleSubmit_cases P st (Some p)) as [[B _] | [_ E]].
    + simpl in B. rewrite N in B. contradiction.
    + rewrite E. simpl. rewrite N. reflexivity.
  - intros N T. rewrite (handleSubmit_blank_custom P st p N T). reflexivity.
  - intros ->. unfold handleSubmit. reflexivity.
Qed.

(** *** From the call to the caller *)

(** X14: what reaches the caller is what the call returned.  When the call
    in flight succeeds and the user then clicks the apply control (and
    consents, should the suggestion look like a full file), the apply
    callback receives exactly the suggestion text of the returned data,
    once, and the close callback follows; this for any returned suggestion
    that is not empty. *)
Theorem returned_suggestion_reaches_the_caller (w : World)
    (data : AIResponse) (f : callback) (a : bool) :
  reachable w -> mounted w = true -> Props.open (props w) = true ->
  loading (state w) = true ->
  Props.onApplySuggestion (props w) = Some f ->
  suggestion data <> [] ->
  (looksLikeFullFile (suggestion data) = true -> a = true) ->
  exists w' es,
    run w [ Settle 0 (Fulfilled data); Click ApplyButton a ] = Some (w', es) /\
    applies es = [ (f, suggestion data) ] /\
    closes es = [ Props.onClose (props w) ] /\
    requests es = [] /\
    response (state w') = Some data.
Proof.
  intros R M O L Cb Ne Ok.
  destruct (lifecycle_inv_reachable w R) as [_ [I2 [I3 _]]].
  destruct (inflight w) as [|r [|r' rest]] eqn:F.
  - rewrite (I3 M eq_refl) in L. discriminate.
  - destruct (step_Settle_sole w r (Fulfilled data) M F)
      as [w1 [S1 [M1 [P1 [St1 F1]]]]].
    assert (Rs : response (state w1) = Some data) by (now rewrite St1).
    apply truthy_true in Ne.
    assert (E : click (props w1) (state w1) ApplyButton a =
                (if looksLikeFullFile (suggestion data)
                 then [ window_confirm confirmText ] else [])
                ++ [ invoke_onApplySuggestion f (suggestion data);
                     invoke_onClose (Props.onClose (props w)) ]).
    { unfold click, backdrop_onClick, disabled, onClick,
        handleApplySuggestion. simpl.
      rewrite Rs, P1, Cb, Ne, app_nil_r.
      destruct (looksLikeFullFile (suggestion data)); [|reflexivity].
      rewrite (Ok eq_refl). reflexivity. }
    eexists. eexists. split.
    + cbn [run]. rewrite S1. unfold step. cbv zeta. rewrite E.
      unfold rendered. rewrite M1, P1, O, Rs. simpl. reflexivity.
    + simpl. rewrite M1.
      destruct (looksLikeFullFile (suggestion data)); simpl;
        rewrite Rs; repeat split.
  - simpl in I2. lia.
Qed.

(** *** Blank prompts *)

(** The prompt an event hands to [handleSubmit], at its three call sites:
    the ask button and Enter call [handleSubmit()], which submits the query
    cell; a quick prompt calls [handleQuickPrompt(prompt.prompt, ...)],
    which calls [handleSubmit(prompt)] with the prompt of its entry. *)
Definition submittedPrompt (st : State) (e : event) : option jsstring :=
  match e with
  | Click AskButton _ => Some (query st)
  | KeyPress key => if JS.eqb key Enter then Some (query st) else None
  | Click (QuickPromptButton k) _ =>
      option_map QuickPrompt.prompt (nth_error quickPrompts k)
  | _ => None
  end.

(** C3: let [p] be a string whose trimmed form is empty.  Submitting [p] does
    nothing, as the value of the query field ([handleSubmit()]) and as an
    explicit prompt ([handleSubmit(p)], with [p] non-empty, or [p] the
    prompt of a catalog entry): the handler performs no effect, so no
    request is issued and the loading, response and error cells (and every
    other cell) keep their values.  In the dialog, every event that submits
    [p] leaves the world as it was and performs nothing. *)
Theorem blank_prompt_is_never_submitted (P : Props.t) (st : State)
    (p : jsstring) :
  trim p = [] ->
  (query st = p ->
     handleSubmit P st None = [] /\
     requests (handleSubmit P st None) = [] /\
     commit st (handleSubmit P st None) = st) /\
  (p <> [] \/ (exists q, In q quickPrompts /\ QuickPrompt.prompt q = p) ->
     handleSubmit P st (Some p) = [] /\
     requests (handleSubmit P st (Some p)) = [] /\
     commit st (handleSubmit P st (Some p)) = st) /\
  (forall w e w' es,
     submittedPrompt (state w) e = Some p ->
     step w e = Some (w', es) ->
     es = [] /\ requests es = [] /\ w' = w).
Proof.
  intros B. split; [|split].
  - intros <-. rewrite (handleSubmit_blank_query P st B). auto.
  - intros H.
    assert (N : p <> []).
    { destruct H as [N | [q [I E]]]; [exact N|].
      apply In_nth_error in I. destruct I as [k I].
      destruct (quickPrompts_not_blank k q I) as [T _].
      rewrite E in T. now apply truthy_true. }
    rewrite (handleSubmit_blank_custom P st p N B). auto.
  - intros w e w' es Sb St.
    assert (Z : forall es0, es0 = [] ->
                  Some (afterHandler w es0, es0) = Some (w', es) ->
                  es = [] /\ requests es = [] /\ w' = w).
    { intros es0 -> H. rewrite afterHandler_nil in H.
      injection H as <- <-. auto. }
    destruct e as [P' | | key | target a | key | value | n o];
      simpl in Sb; try discriminate.
    + (* a click *)
      destruct target as [| | |i|k| | |]; try discriminate.
      * (* a quick prompt: no entry of the catalog is blank *)
        exfalso. destruct (nth_error quickPrompts k) as [q|] eqn:Hk;
          [|discriminate].
        simpl in Sb. injection Sb as <-.
        destruct (quickPrompts_not_blank k q Hk) as [_ T].
        rewrite B in T. discriminate.
      * (* the ask button: disabled on a blank query *)
        injection Sb as <-.
        unfold step in St.
        destruct (mounted w && rendered (props w) (state w) AskButton);
          [|discriminate].
        apply (Z (click (props w) (state w) AskButton a)); [|exact St].
        unfold click, disabled, backdrop_onClick. rewrite B. simpl.
        rewrite orb_true_r. reflexivity.
    + (* Enter in the query input *)
      destruct (JS.eqb key Enter) eqn:K; [|discriminate].
      injection Sb as <-.
      unfold step in St.
      destruct (mounted w && rendered (props w) (state w) QueryInput);
        [|discriminate].
      apply (Z (onKeyPress (props w) (state w) key)); [|exact St].
      unfold onKeyPress. destruct (disabled (state w) QueryInput);
        [reflexivity|]. rewrite K. now apply handleSubmit_blank_query.
Qed.

End Dialog.

(** ** The component at work

    From here on the handlers are run, with [toLowerCaseASCII] for the
    built-in. *)

(** The scenario of the specification: the dialog is opened on an A-Frame
    scene, the user clicks "Fix bugs and errors", the call succeeds, the user
    applies the suggestion. *)
Example fix_bugs_scenario :
  exists w1 w2 w3 req,
    step toLowerCaseASCII (mount sampleProps) (Click (QuickPromptButton 0) false)
      = Some (w1, [ setIntention fix_;
                    setQuery (lit "Please review this code and identify any bugs, errors, or potential issues. Provide fixes and explanations.");
                    setLoading true; setError None; setResponse None;
                    callAIAssistantDirect req ]) /\
    Request.temperature req = 0.1%Q /\
    Request.language req = lit "html" /\
    loading (state w1) = true /\
    step toLowerCaseASCII w1 (Settle 0 (Fulfilled sampleResponse))
      = Some (w2, [ setResponse (Some sampleResponse); setLoading false ]) /\
    response (state w2) = Some sampleResponse /\
    step toLowerCaseASCII w2 (Click ApplyButton false)
      = Some (w3, [ invoke_onApplySuggestion 2 (suggestion sampleResponse);
                    invoke_onClose 1 ]).
Proof. do 4 eexists. repeat split. Qed.

(** The failing input of C1: the dialog has just been mounted, so the
    intention is fix; the user clicks "Add new features", whose intention is
    brainstorm.  The intention becomes brainstorm, yet the request goes out
    with the temperature of fix. *)
Example add_features_after_fix :
  exists w1 es req,
    step toLowerCaseASCII (mount sampleProps) (Click (QuickPromptButton 2) false)
      = Some (w1, es) /\
    intention (state (mount sampleProps)) = fix_ /\
    intention (state w1) = brainstorm /\
    requests es = [ req ] /\
    Request.temperature req = 0.1%Q /\
    Config.temperature (intentionConfig brainstorm) = 0.7%Q /\
    Request.temperature req <> Config.temperature (intentionConfig brainstorm).
Proof. do 3 eexists. repeat split. discriminate. Qed.

(** The same, by the theorem: "Add new features" on the dialog as mounted. *)
Lemma quick_prompt_temperature_is_stale_witness :
  mounted (mount sampleProps) = true /\
  Props.open (props (mount sampleProps)) = true /\
  loading (state (mount sampleProps)) = false /\
  exists q,
    nth_error quickPrompts 2 = Some q /\
    exists w' es req,
      step toLowerCaseASCII (mount sampleProps) (Click (QuickPromptButton 2) false)
        = Some (w', es) /\
      intention (state w') = QuickPrompt.intention q /\
      query (state w') = QuickPrompt.prompt q /\
      requests es = [ req ] /\
      Request.prompt req = QuickPrompt.prompt q /\
      Request.temperature req =
        Config.temperature (intentionConfig (intention (state (mount sampleProps)))) /\
      (intention (state (mount sampleProps)) <> QuickPrompt.intention q ->
       Request.temperature req <>
         Config.temperature (intentionConfig (QuickPrompt.intention q))).
Proof.
  split; [reflexivity|]. split; [reflexivity|]. split; [reflexivity|].
  eexists. split; [reflexivity|].
  apply (quick_prompt_temperature_is_stale toLowerCaseASCII
           (mount sampleProps) 2 _ false); reflexivity.
Defined.

(** C2 as stated fails: a call rejected with an [Error] whose message is the
    empty string leaves the error cell non-null but with an empty message;
    and a thrown value that is not an [Error] gets the fallback text, whether
    or not it carries a message of its own. *)
Lemma empty_error_message_is_stored :
  (exists w' es,
     run toLowerCaseASCII (mount sampleProps)
         [ Change (lit "why is the box black?"); Click AskButton false;
           Settle 0 (Rejected (ErrorInstance [])) ] = Some (w', es) /\
     loading (state w') = false /\ response (state w') = None /\
     error (state w') = Some [] /\
     ~ (exists m, error (state w') = Some m /\ m <> [])) /\
  (exists w' es,
     run toLowerCaseASCII (mount sampleProps)
         [ Change (lit "why is the box black?"); Click AskButton false;
           Settle 0 (Rejected (OtherValue (Some (lit "quota exceeded")))) ]
       = Some (w', es) /\
     error (state w') = Some (lit "Failed to get AI response") /\
     error (state w') <> Some (lit "quota exceeded")).
Proof.
  split; do 2 eexists; (split; [reflexivity|]); simpl.
  - repeat split. intros [m [E N]]. injection E as <-. now apply N.
  - split; [reflexivity | discriminate].
Qed.

(** A question is asked and the call is rejected with an [Error]. *)
Lemma settle_outcome_witness :
  exists w w' es,
    reachable toLowerCaseASCII w /\ mounted w = true /\
    step toLowerCaseASCII w (Settle 0 (Rejected (ErrorInstance (lit "HTTP 401"))))
      = Some (w', es) /\
    loading (state w') = false /\ inflight w' = [] /\
    response (state w') = None /\
    In (console_error (lit "AI Assistant error:") (ErrorInstance (lit "HTTP 401"))) es /\
    error (state w') = Some (lit "HTTP 401").
Proof.
  destruct (run toLowerCaseASCII (mount sampleProps)
              [ Change (lit "why is the box black?"); Click AskButton false ])
    as [[w es0]|] eqn:R; [|discriminate R].
  assert (Rw : reachable toLowerCaseASCII w).
  { eapply (run_reachable toLowerCaseASCII);
      [apply reachable_mount | exact R]. }
  vm_compute in R. injection R as <- <-.
  do 3 eexists.
  split; [exact Rw|]. split; [reflexivity|]. split; [reflexivity|].
  exact (settle_outcome toLowerCaseASCII _ _ 0
           (Rejected (ErrorInstance (lit "HTTP 401"))) _
           Rw eq_refl eq_refl).
Defined.

(** A new question while an earlier response is on display. *)
Lemma handleSubmit_start_clears_witness :
  trim (effectivePrompt None (query (withResponse (withQuery initialState (lit "add a sky")) sampleResponse))) <> [] /\
  (exists req,
     handleSubmit toLowerCaseASCII sampleProps
       (withResponse (withQuery initialState (lit "add a sky")) sampleResponse) None =
       [ setLoading true; setError None; setResponse None;
         callAIAssistantDirect req ]) /\
  loading (commit (withResponse (withQuery initialState (lit "add a sky")) sampleResponse)
             (handleSubmit toLowerCaseASCII sampleProps
                (withResponse (withQuery initialState (lit "add a sky")) sampleResponse) None)) = true /\
  response (commit (withResponse (withQuery initialState (lit "add a sky")) sampleResponse)
             (handleSubmit toLowerCaseASCII sampleProps
                (withResponse (withQuery initialState (lit "add a sky")) sampleResponse) None)) = None /\
  error (commit (withResponse (withQuery initialState (lit "add a sky")) sampleResponse)
             (handleSubmit toLowerCaseASCII sampleProps
                (withResponse (withQuery initialState (lit "add a sky")) sampleResponse) None)) = None.
Proof.
  assert (H : trim (effectivePrompt None
                      (query (withResponse (withQuery initialState (lit "add a sky"))
                                           sampleResponse))) <> [])
    by (vm_compute; discriminate).
  split; [exact H|].
  exact (handleSubmit_start_clears toLowerCaseASCII sampleProps
           (withResponse (withQuery initialState (lit "add a sky")) sampleResponse)
           None H).
Defined.

(** Brainstorm is selected, then the typed question is sent with Enter. *)
Lemma selected_intention_sets_temperature_witness :
  exists w1 w2 req,
    step toLowerCaseASCII
         (afterHandler (mount sampleProps) [ setQuery (lit "add a sky") ])
         (Click (IntentionButton brainstorm) false)
      = Some (w1, [ setIntention brainstorm ]) /\
    step toLowerCaseASCII w1 (KeyPress Enter) =
      Some (w2, [ setLoading true; setError None; setResponse None;
                  callAIAssistantDirect req ]) /\
    inflight w2 = [ req ] /\
    Request.temperature req = 0.7%Q /\
    Request.code req = lit "<a-scene></a-scene>" /\
    Request.language req = toLowerCaseASCII (lit "HTML") /\
    Request.fileName req = Some (lit "index.html") /\
    Request.prompt req = lit "add a sky" /\
    Request.context req =
      lit "WebXR development with A-Frame, Three.js, and modern web technologies".
Proof.
  apply (selected_intention_sets_temperature toLowerCaseASCII
           (afterHandler (mount sampleProps) [ setQuery (lit "add a sky") ])
           brainstorm false false (KeyPress Enter));
    first [ reflexivity | (vm_compute; discriminate) | (right; reflexivity) ].
Defined.

(** C6 as stated fails for a response whose suggestion is the empty string:
    it contains no marker, the apply control is rendered and an apply
    callback is supplied, yet the click invokes neither callback; and with
    no apply callback a suggestion that is a full document is not asked
    about. *)
Lemma empty_suggestion_is_not_applied :
  (looksLikeFullFile (suggestion emptyResponse) = false /\
   Props.onApplySuggestion sampleProps = Some 2 /\
   rendered sampleProps (withResponse initialState emptyResponse) ApplyButton = true /\
   click toLowerCaseASCII sampleProps (withResponse initialState emptyResponse)
         ApplyButton true = []) /\
  (looksLikeFullFile (suggestion fullFileResponse) = true /\
   click toLowerCaseASCII
         {| Props.open := true; Props.onClose := 1;
            Props.code := []; Props.language := lit "html";
            Props.fileName := None; Props.onApplySuggestion := None |}
         (withResponse initialState fullFileResponse) ApplyButton true = []).
Proof. repeat split. Qed.

(** A full document is suggested and the user declines to replace. *)
Lemma handleApplySuggestion_confirms_full_file_witness :
  (response (withResponse initialState fullFileResponse) = Some fullFileResponse /\
   suggestion fullFileResponse <> [] /\
   Props.onApplySuggestion sampleProps = Some 2) /\
  commit (withResponse initialState fullFileResponse)
         (handleApplySuggestion sampleProps
            (withResponse initialState fullFileResponse) false)
    = withResponse initialState fullFileResponse /\
  (includes (suggestion fullFileResponse) (lit "<!DOCTYPE") = true \/
   includes (suggestion fullFileResponse) (lit "<html") = true ->
     handleApplySuggestion sampleProps
       (withResponse initialState fullFileResponse) false
       = window_confirm confirmText ::
         (if false
          then [ invoke_onApplySuggestion 2 (suggestion fullFileResponse);
                 invoke_onClose (Props.onClose sampleProps) ]
          else [])) /\
  (includes (suggestion fullFileResponse) (lit "<!DOCTYPE") = false /\
   includes (suggestion fullFileResponse) (lit "<html") = false ->
     handleApplySuggestion sampleProps
       (withResponse initialState fullFileResponse) false
       = [ invoke_onApplySuggestion 2 (suggestion fullFileResponse);
           invoke_onClose (Props.onClose sampleProps) ]).
Proof.
  assert (N : suggestion fullFileResponse <> []) by (vm_compute; discriminate).
  split; [repeat split; exact N|].
  exact (handleApplySuggestion_confirms_full_file sampleProps
           (withResponse initialState fullFileResponse) fullFileResponse 2 false
           eq_refl N eq_refl).
Defined.

(** Escape on the dialog as mounted, open. *)
Lemma escape_closes_exactly_when_open_witness :
  reachable toLowerCaseASCII (mount sampleProps) /\
  (mounted (mount sampleProps) && Props.open (props (mount sampleProps)) = true ->
     List.length (keydown (mount sampleProps)) = 1 /\
     step toLowerCaseASCII (mount sampleProps) (KeyDown Escape) =
       Some (mount sampleProps,
             [ invoke_onClose (Props.onClose (props (mount sampleProps))) ])) /\
  (mounted (mount sampleProps) && Props.open (props (mount sampleProps)) = false ->
     keydown (mount sampleProps) = [] /\
     forall key,
       step toLowerCaseASCII (mount sampleProps) (KeyDown key) =
         Some (mount sampleProps, [])).
Proof.
  split; [apply reachable_mount|].
  exact (escape_closes_exactly_when_open toLowerCaseASCII (mount sampleProps)
           (reachable_mount toLowerCaseASCII sampleProps)).
Defined.

(** The dialog is opened, closed by the caller and opened again with another
    close callback: each Escape reaches the callback of the props of the
    moment, once, and none while closed or after the unmount. *)
Example escape_over_open_and_close :
  let closed := {| Props.open := false; Props.onClose := 1;
                   Props.code := []; Props.language := lit "html";
                   Props.fileName := None; Props.onApplySuggestion := None |} in
  let reopened := {| Props.open := true; Props.onClose := 5;
                     Props.code := []; Props.language := lit "html";
                     Props.fileName := None; Props.onApplySuggestion := None |} in
  option_map snd
    (run toLowerCaseASCII (mount sampleProps)
       [ KeyDown Escape; Rerender closed; KeyDown Escape; KeyDown Escape;
         Rerender reopened; KeyDown (lit "a"); KeyDown Escape;
         Unmount; KeyDown Escape ])
  = Some [ invoke_onClose 1; invoke_onClose 5 ].
Proof. reflexivity. Qed.

(** C8 as stated fails for the close control, an element inside the dialog:
    a click on it invokes the close callback. *)
Lemma close_button_click_closes :
  CloseButton <> Backdrop /\
  rendered sampleProps initialState CloseButton = true /\
  click toLowerCaseASCII sampleProps initialState CloseButton false
    = [ invoke_onClose 1 ] /\
  closes (click toLowerCaseASCII sampleProps
            (withResponse initialState sampleResponse) ApplyButton false)
    = [ 1 ].
Proof. repeat split. discriminate. Qed.

(** The apply control on a response with an empty suggestion. *)
Lemma apply_without_callback_or_text_is_noop_witness :
  (Props.onApplySuggestion sampleProps = None \/
   exists r, response (withResponse initialState emptyResponse) = Some r /\
             suggestion r = []) /\
  handleApplySuggestion sampleProps
    (withResponse initialState emptyResponse) true = [] /\
  click toLowerCaseASCII sampleProps
    (withResponse initialState emptyResponse) ApplyButton true = [] /\
  commit (withResponse initialState emptyResponse)
    (click toLowerCaseASCII sampleProps
       (withResponse initialState emptyResponse) ApplyButton true)
    = withResponse initialState emptyResponse.
Proof.
  assert (H : Props.onApplySuggestion sampleProps = None \/
              exists r, response (withResponse initialState emptyResponse) = Some r /\
                        suggestion r = [])
    by (right; exists emptyResponse; split; reflexivity).
  split; [exact H|].
  exact (apply_without_callback_or_text_is_noop toLowerCaseASCII sampleProps
           (withResponse initialState emptyResponse) true H).
Defined.

(** ** More sample worlds *)

(** The dialog with a question typed, then asked, then answered. *)
Definition sampleTyped : World :=
  afterHandler (mount sampleProps) [ setQuery (lit "add a sky") ].

Definition sampleAsked : World :=
  afterHandler sampleTyped
    (click toLowerCaseASCII (props sampleTyped) (state sampleTyped)
           AskButton false).

Definition sampleClosed : Props.t :=
  {| Props.open := false;
     Props.onClose := 1;
     Props.code := lit "<a-scene></a-scene>";
     Props.language := lit "HTML";
     Props.fileName := Some (lit "index.html");
     Props.onApplySuggestion := Some 2 |}.

Lemma sampleTyped_reachable : reachable toLowerCaseASCII sampleTyped.
Proof.
  apply (reachable_step toLowerCaseASCII (mount sampleProps)
           (Change (lit "add a sky")) sampleTyped [ setQuery (lit "add a sky") ]);
    [apply reachable_mount | reflexivity].
Qed.

Lemma sampleAsked_reachable : reachable toLowerCaseASCII sampleAsked.
Proof.
  eapply (reachable_step toLowerCaseASCII sampleTyped
            (Click AskButton false) sampleAsked);
    [apply sampleTyped_reachable | reflexivity].
Qed.

(** One call is in flight once the question is asked. *)
Lemma at_most_one_call_in_flight_witness :
  List.length (inflight sampleAsked) <= 1 /\
  (inflight sampleAsked <> [] -> loading (state sampleAsked) = true) /\
  (mounted sampleAsked = true -> loading (state sampleAsked) = true ->
   inflight sampleAsked <> []) /\
  (loading (state sampleAsked) = true ->
     response (state sampleAsked) = None /\ error (state sampleAsked) = None) /\
  (response (state sampleAsked) = None \/ error (state sampleAsked) = None).
Proof.
  exact (at_most_one_call_in_flight toLowerCaseASCII sampleAsked
           sampleAsked_reachable).
Defined.

(** The loading indicator alone, and a thinking avatar, while the call is in
    flight. *)
Lemma response_area_shows_one_panel_witness :
  responseArea (state sampleAsked) = [ panelOf (state sampleAsked) ] /\
  panelOf (state sampleAsked) = LoadingPanel.
Proof.
  split; [|reflexivity].
  exact (response_area_shows_one_panel toLowerCaseASCII sampleAsked
           sampleAsked_reachable).
Defined.

Lemma header_avatar_matches_panel_witness :
  headerAvatar (state sampleAsked) = moodOf (panelOf (state sampleAsked)) /\
  isThinking (headerAvatar (state sampleAsked)) = true.
Proof.
  split; [|reflexivity].
  exact (header_avatar_matches_panel toLowerCaseASCII sampleAsked
           sampleAsked_reachable).
Defined.

(** An [Error] with an empty message leaves the welcome text on display. *)
Example empty_error_shows_welcome :
  exists w es,
    step toLowerCaseASCII sampleAsked (Settle 0 (Rejected (ErrorInstance [])))
      = Some (w, es) /\
    error (state w) = Some [] /\
    responseArea (state w) = [ WelcomePanel ].
Proof. do 2 eexists. repeat split. Qed.

(** Enter on the typed question. *)
Lemma requests_come_from_submit_controls_witness :
  exists w' es req,
    step toLowerCaseASCII sampleTyped (KeyPress Enter) = Some (w', es) /\
    In req (requests es) /\
    requests es = [ req ] /\
    mounted sampleTyped = true /\ Props.open (props sampleTyped) = true /\
    loading (state sampleTyped) = false /\
    (KeyPress Enter = KeyPress Enter \/
     (exists a, KeyPress Enter = Click AskButton a) \/
     (exists k a q, KeyPress Enter = Click (QuickPromptButton k) a /\
                    nth_error quickPrompts k = Some q /\
                    Request.prompt req = QuickPrompt.prompt q)) /\
    trim (Request.prompt req) <> [] /\
    Request.code req = Props.code (props sampleTyped) /\
    Request.language req = toLowerCaseASCII (Props.language (props sampleTyped)) /\
    Request.fileName req = Props.fileName (props sampleTyped) /\
    Request.context req = contextString /\
    Request.temperature req =
      Config.temperature (intentionConfig (intention (state sampleTyped))) /\
    loading (state w') = true /\
    inflight w' = inflight sampleTyped ++ [ req ].
Proof.
  do 3 eexists. split; [reflexivity|]. split; [left; reflexivity|].
  apply (requests_come_from_submit_controls toLowerCaseASCII sampleTyped _
           (KeyPress Enter) _ _ eq_refl).
  left. reflexivity.
Defined.

Definition sampleAnswered : World :=
  match step toLowerCaseASCII sampleAsked (Settle 0 (Fulfilled sampleResponse)) with
  | Some (w, _) => w
  | None => sampleAsked
  end.

Definition sampleAskedThenClosed : World :=
  match step toLowerCaseASCII sampleAsked (Rerender sampleClosed) with
  | Some (w, _) => w
  | None => sampleAsked
  end.

Lemma sampleAnswered_reachable : reachable toLowerCaseASCII sampleAnswered.
Proof.
  eapply (reachable_step toLowerCaseASCII sampleAsked
            (Settle 0 (Fulfilled sampleResponse)) sampleAnswered);
    [apply sampleAsked_reachable | reflexivity].
Qed.

Lemma sampleAskedThenClosed_reachable :
  reachable toLowerCaseASCII sampleAskedThenClosed.
Proof.
  eapply (reachable_step toLowerCaseASCII sampleAsked
            (Rerender sampleClosed) sampleAskedThenClosed);
    [apply sampleAsked_reachable | reflexivity].
Qed.

(** The answer is applied. *)
Lemma apply_callback_only_from_apply_control_witness :
  exists w' es,
    step toLowerCaseASCII sampleAnswered (Click ApplyButton false)
      = Some (w', es) /\
    applies es <> [] /\
    exists a r f,
      Click ApplyButton false = Click ApplyButton a /\
      mounted sampleAnswered = true /\
      Props.open (props sampleAnswered) = true /\
      response (state sampleAnswered) = Some r /\ suggestion r <> [] /\
      Props.onApplySuggestion (props sampleAnswered) = Some f /\
      es = (if looksLikeFullFile (suggestion r)
            then [ window_confirm confirmText ] else [])
           ++ [ invoke_onApplySuggestion f (suggestion r);
                invoke_onClose (Props.onClose (props sampleAnswered)) ] /\
      (looksLikeFullFile (suggestion r) = true -> a = true) /\
      state w' = state sampleAnswered /\ inflight w' = inflight sampleAnswered.
Proof.
  do 2 eexists. split; [reflexivity|].
  assert (N : applies
                [ invoke_onApplySuggestion 2 (suggestion sampleResponse);
                  invoke_onClose 1 ] <> []) by discriminate.
  split; [exact N|].
  exact (apply_callback_only_from_apply_control toLowerCaseASCII
           sampleAnswered _ (Click ApplyButton false) _ eq_refl N).
Defined.

(** The call settles after the caller has closed the dialog. *)
Lemma closed_dialog_is_inert_witness :
  exists w' es,
    mounted sampleAskedThenClosed
      && Props.open (props sampleAskedThenClosed) = false /\
    step toLowerCaseASCII sampleAskedThenClosed
         (Settle 0 (Fulfilled sampleResponse)) = Some (w', es) /\
    requests es = [] /\ closes es = [] /\ applies es = [] /\
    confirms es = [] /\
    (forall target a, Settle 0 (Fulfilled sampleResponse) <> Click target a) /\
    (forall key, Settle 0 (Fulfilled sampleResponse) <> KeyPress key) /\
    (forall value, Settle 0 (Fulfilled sampleResponse) <> Change value) /\
    ((forall n o, Settle 0 (Fulfilled sampleResponse) <> Settle n o) \/
     mounted sampleAskedThenClosed = false ->
     state w' = state sampleAskedThenClosed).
Proof.
  do 2 eexists. split; [reflexivity|]. split; [reflexivity|].
  exact (closed_dialog_is_inert toLowerCaseASCII sampleAskedThenClosed _
           (Settle 0 (Fulfilled sampleResponse)) _
           sampleAskedThenClosed_reachable eq_refl eq_refl).
Defined.

(** The intention is changed while the call is in flight. *)
Lemma loading_freezes_the_compose_controls_witness :
  exists w' es,
    loading (state sampleAsked) = true /\
    step toLowerCaseASCII sampleAsked (Click (IntentionButton explain) false)
      = Some (w', es) /\
    requests es = [] /\ inflight w' = inflight sampleAsked /\
    query (state w') = query (state sampleAsked) /\
    response (state w') = response (state sampleAsked) /\
    error (state w') = error (state sampleAsked) /\
    loading (state w') = true.
Proof.
  do 2 eexists. split; [reflexivity|]. split; [reflexivity|].
  apply (loading_freezes_the_compose_controls toLowerCaseASCII sampleAsked _
           (Click (IntentionButton explain) false) _ eq_refl eq_refl).
  discriminate.
Defined.

(** The dialog is closed while loading, answered, and opened again. *)
Lemma response_arriving_while_closed_is_kept_witness :
  exists w',
    run toLowerCaseASCII sampleAsked
        [ Rerender sampleClosed; Settle 0 (Fulfilled sampleResponse);
          Rerender sampleProps ]
      = Some (w', [ setResponse (Some sampleResponse); setLoading false ]) /\
    props w' = sampleProps /\ inflight w' = [] /\
    response (state w') = Some sampleResponse /\
    loading (state w') = false /\ error (state w') = None /\
    query (state w') = query (state sampleAsked) /\
    intention (state w') = intention (state sampleAsked) /\
    responseArea (state w') = [ ResponsePanel sampleResponse ] /\
    rendered (props w') (state w') ApplyButton = true.
Proof.
  exact (response_arriving_while_closed_is_kept toLowerCaseASCII sampleAsked
           sampleClosed sampleProps sampleResponse
           sampleAsked_reachable eq_refl eq_refl eq_refl eq_refl).
Defined.

(** "Add new features" on the dialog as mounted, then a question. *)
Lemma followup_carries_the_quick_prompt_intention_witness :
  exists q,
    nth_error quickPrompts 2 = Some q /\
    exists w' es r1 r2,
      run toLowerCaseASCII (mount sampleProps)
          [ Click (QuickPromptButton 2) false;
            Settle 0 (Fulfilled sampleResponse);
            Change (lit "add a sky"); Click AskButton false ]
        = Some (w', es) /\
      requests es = [ r1; r2 ] /\
      Request.prompt r1 = QuickPrompt.prompt q /\
      Request.temperature r1 =
        Config.temperature
          (intentionConfig (intention (state (mount sampleProps)))) /\
      Request.prompt r2 = lit "add a sky" /\
      Request.temperature r2 =
        Config.temperature (intentionConfig (QuickPrompt.intention q)).
Proof.
  eexists. split; [reflexivity|].
  assert (V : trim (lit "add a sky") <> []) by (vm_compute; discriminate).
  exact (followup_carries_the_quick_prompt_intention toLowerCaseASCII
           (mount sampleProps) 2 _ false false (Fulfilled sampleResponse)
           (lit "add a sky")
           (reachable_mount toLowerCaseASCII sampleProps)
           eq_refl eq_refl eq_refl eq_refl V).
Defined.

(** A full page is returned and applied with the user's consent. *)
Lemma returned_suggestion_reaches_the_caller_witness :
  exists w' es,
    run toLowerCaseASCII sampleAsked
        [ Settle 0 (Fulfilled fullFileResponse); Click ApplyButton true ]
      = Some (w', es) /\
    applies es = [ (2, suggestion fullFileResponse) ] /\
    closes es = [ Props.onClose (props sampleAsked) ] /\
    requests es = [] /\
    response (state w') = Some fullFileResponse.
Proof.
  assert (N : suggestion fullFileResponse <> []) by (vm_compute; discriminate).
  exact (returned_suggestion_reaches_the_caller toLowerCaseASCII sampleAsked
           fullFileResponse 2 true
           sampleAsked_reachable eq_refl eq_refl eq_refl eq_refl N
           (fun _ => eq_refl)).
Defined.

(** Three spaces: as the query on Enter or the ask button, and as an
    explicit prompt. *)
Lemma blank_prompt_is_never_submitted_witness :
  trim (lit "   ") = [] /\
  (query (withQuery initialState (lit "   ")) = lit "   " ->
     handleSubmit toLowerCaseASCII sampleProps
       (withQuery initialState (lit "   ")) None = [] /\
     requests (handleSubmit toLowerCaseASCII sampleProps
                 (withQuery initialState (lit "   ")) None) = [] /\
     commit (withQuery initialState (lit "   "))
       (handleSubmit toLowerCaseASCII sampleProps
          (withQuery initialState (lit "   ")) None)
       = withQuery initialState (lit "   ")) /\
  (lit "   " <> [] \/
   (exists q, In q quickPrompts /\ QuickPrompt.prompt q = lit "   ") ->
     handleSubmit toLowerCaseASCII sampleProps
       (withQuery initialState (lit "   ")) (Some (lit "   ")) = [] /\
     requests (handleSubmit toLowerCaseASCII sampleProps
                 (withQuery initialState (lit "   ")) (Some (lit "   "))) = [] /\
     commit (withQuery initialState (lit "   "))
       (handleSubmit toLowerCaseASCII sampleProps
          (withQuery initialState (lit "   ")) (Some (lit "   ")))
       = withQuery initialState (lit "   ")) /\
  (forall w e w' es,
     submittedPrompt (state w) e = Some (lit "   ") ->
     step toLowerCaseASCII w e = Some (w', es) ->
     es = [] /\ requests es = [] /\ w' = w).
Proof.
  split; [reflexivity|].
  exact (blank_prompt_is_never_submitted toLowerCaseASCII sampleProps
           (withQuery initialState (lit "   ")) (lit "   ") eq_refl).
Defined.

(** Enter on a query of three spaces, in the dialog. *)
Example enter_on_three_spaces :
  step toLowerCaseASCII
       (afterHandler (mount sampleProps) [ setQuery (lit "   ") ])
       (KeyPress Enter)
  = Some (afterHandler (mount sampleProps) [ setQuery (lit "   ") ], []).
Proof. reflexivity. Qed.
